(** * therapist-trainerAI: the Flask back end [app.py]

    A shallow embedding of [src/app.py] and the properties its
    specification states about it.

    - Python floats are IEEE 754 binary64 values: [spec_float] of the
      Standard Library, compared with [SFltb] / [SFleb].
    - JSON request and response bodies are the dynamically typed Python
      values [value]; a [dict] is an association list in insertion order.
    - Handlers run in a state-and-exception monad [M].  The state records
      every call of [subprocess.run] and every line printed, and holds the
      binding of the local variable [conversation_history] of [message],
      which its [except] clause reads.
    - What [app.py] uses and does not define (the model runner, TextBlob,
      the builtins [strip], [lower] and [str]) is a field of the
      environment [env], over which every property is quantified. *)

From Stdlib Require Import ZArith List String Ascii Bool Lia.
From Stdlib Require Import Floats.SpecFloat.
Import ListNotations.
Set Warnings "-register-all".
Open Scope string_scope.
Open Scope Z_scope.

(** ** Floats *)

Module Float.

(** A Python [float]. *)
Definition float := spec_float.

(** The literal [0.3]: the binary64 value nearest to 3/10,
    5404319552844595 * 2^-54 (bit pattern 0x3FD3333333333333). *)
Definition lit_0_3 : float := S754_finite false 5404319552844595 (-54).

(** The literals [1.0] and [0.0]. *)
Definition lit_1 : float := S754_finite false 4503599627370496 (-52).
Definition lit_0 : float := S754_zero false.

(** Unary minus. *)
Definition neg (x : float) : float := SFopp x.

(** Python's [x < y], [x > y] and [x <= y] on floats: the IEEE 754
    comparisons, false as soon as an operand is not a number. *)
Definition lt (x y : float) : bool := SFltb x y.
Definition gt (x y : float) : bool := SFltb y x.
Definition le (x y : float) : bool := SFleb x y.

Definition is_nan (x : float) : bool :=
  match x with S754_nan => true | _ => false end.

(** A polarity score: a number in [-1.0, 1.0]. *)
Definition polarity_score (s : float) : bool :=
  le (neg lit_1) s && le s lit_1.

End Float.

Import Float.

(** ** Mood and evaluation colour *)

Inductive mood := Positive | Negative | Neutral.
Inductive color := GREEN | YELLOW | RED.

(** [message], lines 104-109. *)
Definition classify_mood (mood_score : float) : mood :=
  if gt mood_score lit_0_3 then Positive
  else if lt mood_score (neg lit_0_3) then Negative
  else Neutral.

(** [message], lines 129-134. *)
Definition classify_color (polarity : float) : color :=
  if gt polarity lit_0_3 then GREEN
  else if gt polarity (neg lit_0_3) then YELLOW
  else RED.

Definition mood_name (m : mood) : string :=
  match m with
  | Positive => "Positive"
  | Negative => "Negative"
  | Neutral => "Neutral"
  end.

Definition color_name (c : color) : string :=
  match c with
  | GREEN => "GREEN"
  | YELLOW => "YELLOW"
  | RED => "RED"
  end.

(** ** Python values *)

(** What [request.get_json()] can return and [jsonify] can send: [None],
    booleans, integers, floats, strings, lists and dicts. *)
Inductive value :=
| VNone
| VBool (b : bool)
| VInt (n : Z)
| VFloat (x : float)
| VStr (s : string)
| VList (items : list value)
| VDict (fields : list (string * value)).

(** [type(v).__name__]. *)
Definition type_name (v : value) : string :=
  match v with
  | VNone => "NoneType"
  | VBool _ => "bool"
  | VInt _ => "int"
  | VFloat _ => "float"
  | VStr _ => "str"
  | VList _ => "list"
  | VDict _ => "dict"
  end.

(** Truth value testing, as [not x] and [all] apply it. *)
Definition truthy (v : value) : bool :=
  match v with
  | VNone => false
  | VBool b => b
  | VInt n => negb (n =? 0)
  | VFloat x => match x with S754_zero _ => false | _ => true end
  | VStr s => negb (s =? "")%string
  | VList items => match items with [] => false | _ => true end
  | VDict fields => match fields with [] => false | _ => true end
  end.

(** [all(xs)]. *)
Definition all (xs : list value) : bool := forallb truthy xs.

(** Lookup of a key in the fields of a dict. *)
Fixpoint lookup (key : string) (fields : list (string * value)) : option value :=
  match fields with
  | [] => None
  | (k, v) :: rest => if (k =? key)%string then Some v else lookup key rest
  end.

Definition keys (fields : list (string * value)) : list string := map fst fields.

(** ** Exceptions *)

(** The exceptions of the handlers.  [AttributeError] and [TypeError]
    carry the name of the type of the offending object. *)
Inductive exn :=
| AttributeError (type attr : string)
| KeyError (key : string)
| TypeError (type : string)
| UnboundLocalError (name : string)
| CalledProcessError (returncode : Z) (cmd : list string)
| TimeoutExpired (cmd : list string)
| FileNotFoundError (filename : string)
| ValueError (msg : string).

(** ** The handler monad *)

Inductive outcome (A : Type) :=
| Ok (a : A)
| Raise (e : exn).
Arguments Ok {A} a.
Arguments Raise {A} e.

Record state := mkState {
  launched : list (list string);   (* argv of each subprocess.run, oldest first *)
  printed : list string;           (* lines written by print, oldest first *)
  local_history : option value     (* message's local conversation_history *)
}.

Definition init : state := mkState [] [] None.

Definition M (A : Type) : Type := state -> outcome A * state.

Definition ret {A} (a : A) : M A := fun st => (Ok a, st).

Definition raise {A} (e : exn) : M A := fun st => (Raise e, st).

Definition bind {A B} (m : M A) (k : A -> M B) : M B :=
  fun st =>
    match m st with
    | (Ok a, st') => k a st'
    | (Raise e, st') => (Raise e, st')
    end.

(** [try: m  except Exception as e: h e].  The state reached when the
    exception was raised is kept. *)
Definition try_except {A} (m : M A) (h : exn -> M A) : M A :=
  fun st =>
    match m st with
    | (Ok a, st') => (Ok a, st')
    | (Raise e, st') => h e st'
    end.

Notation "x <- m ;; k" := (bind m (fun x => k))
  (at level 61, m at next level, right associativity).
Notation "m ;;; k" := (bind m (fun _ => k))
  (at level 61, right associativity).

Definition print (line : string) : M unit :=
  fun st => (Ok tt, mkState (launched st) (printed st ++ [line]) (local_history st)).

(** A call of [message] runs in a frame of its own: its local
    [conversation_history] starts unbound and is gone when the call ends. *)
Definition in_frame {A} (m : M A) : M A :=
  fun st =>
    match m (mkState (launched st) (printed st) None) with
    | (r, st') => (r, mkState (launched st') (printed st') (local_history st))
    end.

(** Assignment to, and reading of, the local [conversation_history]. *)
Definition assign_history (v : value) : M unit :=
  fun st => (Ok tt, mkState (launched st) (printed st) (Some v)).

Definition read_history : M value :=
  fun st =>
    match local_history st with
    | Some v => (Ok v, st)
    | None => (Raise (UnboundLocalError "conversation_history"), st)
    end.

(** ** Operations on values *)

(** [data.get(key, default)]; [data.get(key)] is [dict_get data key VNone]. *)
Definition dict_get (data : value) (key : string) (default : value) : M value :=
  match data with
  | VDict fields =>
      ret (match lookup key fields with Some v => v | None => default end)
  | _ => raise (AttributeError (type_name data) "get")
  end.

(** [entry[key]] for a string key. *)
Definition subscript (entry : value) (key : string) : M value :=
  match entry with
  | VDict fields =>
      match lookup key fields with
      | Some v => ret v
      | None => raise (KeyError key)
      end
  | _ => raise (TypeError (type_name entry))
  end.

(** [conversation_history.append(entry)]: the list the local is bound to
    grows in place. *)
Definition append_history (entry : value) : M unit :=
  h <- read_history ;;
  match h with
  | VList items => assign_history (VList (items ++ [entry]))
  | _ => raise (AttributeError (type_name h) "append")
  end.

(** [sep.join(parts)]. *)
Fixpoint join (sep : string) (parts : list string) : string :=
  match parts with
  | [] => ""
  | [p] => p
  | p :: rest => p ++ sep ++ join sep rest
  end.

(** The line feed ["\n"]. *)
Definition nl : string := String (ascii_of_nat 10) EmptyString.

(** ** The environment *)

(** How a launch of the model runner ends: [subprocess.run] returns a
    completed process with exit status 0 (because of [check=True]) or
    raises. *)
Inductive process :=
| Completed (stdout : string)
| Failed (e : exn).

Record env := mkEnv {
  (** [subprocess.run(argv, capture_output=True, text=True, check=True,
      timeout=30)], given how many launches came before. *)
  subprocess_run : nat -> list string -> process;
  (** [s.strip()] and [s.lower()]. *)
  str_strip : string -> string;
  str_lower : string -> string;
  (** [str(v)] for a value that is not a string. *)
  str_value : value -> string;
  (** [str(e)]. *)
  str_exn : exn -> string;
  (** [TextBlob(text).sentiment.polarity]. *)
  sentiment_polarity : string -> float
}.

Record response := mkResponse {
  status : Z;
  body : value
}.

(** [jsonify(fields)] and [jsonify(fields), code]. *)
Definition jsonify (fields : list (string * value)) : response :=
  mkResponse 200 (VDict fields).
Definition jsonify_status (fields : list (string * value)) (code : Z) : response :=
  mkResponse code (VDict fields).

(** ** Prompt templates *)

(** [start_session], lines 54-61. *)
Definition initial_prompt (situation_lower personality_lower style role : string)
  : string :=
  "You are a patient experiencing " ++ situation_lower ++ ". "
  ++ "Your personality is " ++ personality_lower ++ ". "
  ++ "You are engaging in a " ++ style ++ " conversation with a " ++ role ++ ". "
  ++ "Please respond as the patient, conveying your feelings and thoughts authentically. Only output the response, nothing else."
  ++ "while maintaining a " ++ personality_lower ++ " personality style.  "
  ++ "Remember your role as the patient and focus on your immediate emotional response.".

(** [message], lines 92-96. *)
Definition turn_prompt
  (role situation_lower personality_lower style conversation_context : string)
  : string :=
  "The following is a conversation between a " ++ role ++ " and a patient. "
  ++ "As the patient, experiencing " ++ situation_lower ++ ", with a "
  ++ personality_lower ++ " personality, and communicating in a " ++ style
  ++ " manner, respond only with your next statement and nothing else:" ++ nl ++ nl
  ++ conversation_context.

(** [message], lines 120-123. *)
Definition critique_prompt (role user_message : string) : string :=
  "Evaluate the therapeutic quality of this " ++ role ++ "'s response: '"
  ++ user_message ++ "'." ++ nl
  ++ "Provide a brief, less than 20 word evaluation focusing on its helpfulness and appropriateness. Suggest a better response.".

(** [evaluate], lines 165-169. *)
Definition session_prompt (conversation_text : string) : string :=
  "Review the following therapy session conversation:" ++ nl
  ++ conversation_text ++ nl
  ++ "Provide a constructive evaluation and feedback of the session, noting strengths and areas for improvement.  "
  ++ "Be specific and concise.".

Definition default_model : string := "llama3.2:3b".

Section App.

Variable E : env.

(** A value inside an f-string: [format(v, "")]. *)
Definition fmt (v : value) : string :=
  match v with
  | VStr s => s
  | _ => str_value E v
  end.

(** [v.lower()]: only strings have the method. *)
Definition lower (v : value) : M string :=
  match v with
  | VStr s => ret (str_lower E s)
  | _ => raise (AttributeError (type_name v) "lower")
  end.

(** The launch itself: it is recorded, then it completes or raises. *)
Definition run (argv : list string) : M string :=
  fun st =>
    let st' := mkState (launched st ++ [argv]) (printed st) (local_history st) in
    match subprocess_run E (List.length (launched st)) argv with
    | Completed stdout => (Ok stdout, st')
    | Failed e => (Raise e, st')
    end.

(** [call_ollama], lines 17-36. *)
Definition call_ollama (prompt : string) (model : string) : M string :=
  try_except
    (stdout <- run ["ollama"; "run"; model; prompt] ;;
     ret (str_strip E stdout))
    (fun e =>
       match e with
       | CalledProcessError _ _ =>
           print ("Error calling LLM (" ++ model ++ "): " ++ str_exn E e) ;;;
           ret ("LLM error: " ++ str_exn E e)
       | TimeoutExpired _ =>
           print ("LLM call timed out for model " ++ model) ;;;
           ret "LLM request timed out."
       | _ => raise e
       end).

(** One item of the generator [f"{entry['speaker']}: {entry['text']}"]. *)
Definition entry_line (entry : value) : M string :=
  speaker <- subscript entry "speaker" ;;
  text <- subscript entry "text" ;;
  ret (fmt speaker ++ ": " ++ fmt text).

Fixpoint entry_lines (entries : list value) : M (list string) :=
  match entries with
  | [] => ret []
  | entry :: rest =>
      line <- entry_line entry ;;
      lines <- entry_lines rest ;;
      ret (line :: lines)
  end.

(** ["\n".join(f"{entry['speaker']}: {entry['text']}" for entry in
    conversation_history)], lines 91 and 164.  Iterating a string or a
    dict yields strings, which a string key cannot subscript; the other
    values are not iterable. *)
Definition conversation_context (conversation_history : value) : M string :=
  match conversation_history with
  | VList entries =>
      lines <- entry_lines entries ;;
      ret (join nl lines)
  | VStr s => if (s =? "")%string then ret "" else raise (TypeError "str")
  | VDict fields =>
      match fields with [] => ret "" | _ => raise (TypeError "str") end
  | _ => raise (TypeError (type_name conversation_history))
  end.

(** [start_session], lines 44-74. *)
Definition start_session (data : value) : M response :=
  situation <- dict_get data "situation" VNone ;;
  personality <- dict_get data "personality" VNone ;;
  style <- dict_get data "style" VNone ;;
  role <- dict_get data "role" VNone ;;
  if negb (all [situation; personality; style; role]) then
    ret (jsonify_status [("error", VStr "Missing parameters")] 400)
  else
    situation_lower <- lower situation ;;
    personality_lower <- lower personality ;;
    patient_response <-
      call_ollama
        (initial_prompt situation_lower personality_lower (fmt style) (fmt role))
        default_model ;;
    let conversation_history :=
      VList [VDict [("speaker", VStr "Patient"); ("text", VStr patient_response)]] in
    ret (jsonify [("response", VStr patient_response);
                  ("conversation_history", conversation_history);
                  ("situation", situation);
                  ("personality", personality);
                  ("style", style);
                  ("role", role)]).

(** The [try] block of [message], lines 79-144. *)
Definition message_try (data : value) : M response :=
  conversation_history <- dict_get data "conversation_history" (VList []) ;;
  assign_history conversation_history ;;;
  user_message <- dict_get data "message" VNone ;;
  situation <- dict_get data "situation" VNone ;;
  personality <- dict_get data "personality" VNone ;;
  style <- dict_get data "style" VNone ;;
  role <- dict_get data "role" VNone ;;
  append_history (VDict [("speaker", VStr "You"); ("text", user_message)]) ;;;
  history <- read_history ;;
  context <- conversation_context history ;;
  situation_lower <- lower situation ;;
  personality_lower <- lower personality ;;
  patient_response <-
    call_ollama
      (turn_prompt (fmt role) situation_lower personality_lower (fmt style) context)
      default_model ;;
  let mood_score := sentiment_polarity E patient_response in
  let mood := classify_mood mood_score in
  append_history (VDict [("speaker", VStr "Patient");
                         ("text", VStr patient_response);
                         ("mood", VStr (mood_name mood));
                         ("mood_score", VFloat mood_score)]) ;;;
  evaluation <- call_ollama (critique_prompt (fmt role) (fmt user_message))
                            default_model ;;
  let eval_text := str_strip E evaluation in
  let polarity := sentiment_polarity E eval_text in
  let color_response := classify_color polarity in
  history <- read_history ;;
  ret (jsonify [("conversation_history", history);
                ("response", VStr patient_response);
                ("evaluation", VDict [("color", VStr (color_name color_response));
                                      ("text", VStr eval_text)])]).

(** The [except Exception as e] clause of [message], lines 146-154. *)
Definition message_except (e : exn) : M response :=
  let error := str_exn E e in
  history <- read_history ;;
  ret (jsonify_status [("error", VStr error);
                       ("conversation_history", history);
                       ("evaluation", VDict [("color", VStr "RED");
                                             ("text", VStr ("Error: " ++ error))])]
                      500).

(** [message], lines 77-154. *)
Definition message (data : value) : M response :=
  in_frame (try_except (message_try data) message_except).

(** [evaluate], lines 157-173. *)
Definition evaluate (data : value) : M response :=
  conversation_history <- dict_get data "conversation_history" (VList []) ;;
  if negb (truthy conversation_history) then
    ret (jsonify_status [("error", VStr "No conversation history provided")] 400)
  else
    conversation_text <- conversation_context conversation_history ;;
    evaluation <- call_ollama (session_prompt conversation_text) default_model ;;
    ret (jsonify [("evaluation", VStr evaluation)]).

(** [home], lines 40-41. *)
Definition home : string := "Welcome! The server is running on port 8000.".

End App.

(** ** Reading requests and responses *)

(** The value [data.get(key)] has when [data] is a JSON object. *)
Definition field (key : string) (fields : list (string * value)) : value :=
  match lookup key fields with
  | Some v => v
  | None => VNone
  end.

(** The history a request carries: [data.get('conversation_history', [])]. *)
Definition request_history (fields : list (string * value)) : value :=
  match lookup "conversation_history" fields with
  | Some v => v
  | None => VList []
  end.

(** A field of a response body. *)
Definition body_field (key : string) (r : response) : option value :=
  match body r with
  | VDict fields => lookup key fields
  | _ => None
  end.

(** The keys of a history entry. *)
Definition entry_keys (entry : value) : list string :=
  match entry with
  | VDict fields => keys fields
  | _ => []
  end.

(** The entries [message] appends. *)
Definition you_entry (user_message : value) : value :=
  VDict [("speaker", VStr "You"); ("text", user_message)].

Definition patient_entry (E : env) (patient_response : string) : value :=
  VDict [("speaker", VStr "Patient");
         ("text", VStr patient_response);
         ("mood", VStr (mood_name (classify_mood (sentiment_polarity E patient_response))));
         ("mood_score", VFloat (sentiment_polarity E patient_response))].

(** The entry [start_session] creates. *)
Definition seed_entry (patient_response : string) : value :=
  VDict [("speaker", VStr "Patient"); ("text", VStr patient_response)].

(** An outcome of the runner that [call_ollama] turns into a string. *)
Definition handled (p : process) : bool :=
  match p with
  | Completed _ => true
  | Failed (CalledProcessError _ _) => true
  | Failed (TimeoutExpired _) => true
  | Failed _ => false
  end.

(** The string [call_ollama] returns for such an outcome. *)
Definition reply_of (E : env) (p : process) : string :=
  match p with
  | Completed stdout => str_strip E stdout
  | Failed (TimeoutExpired _) => "LLM request timed out."
  | Failed e => "LLM error: " ++ str_exn E e
  end.

(** ** The data model of the specification *)

(** What follows is written from the words of the specification, to be
    compared with the handlers above. *)

(** ConversationEntry: speaker, text and, optionally, mood and mood score. *)
Record entry := mkEntry {
  speaker : string;
  text : string;
  mood_info : option (mood * float)
}.

(** The JSON object of an entry. *)
Definition entry_value (e : entry) : value :=
  VDict ([("speaker", VStr (speaker e)); ("text", VStr (text e))]
         ++ match mood_info e with
            | Some (m, score) =>
                [("mood", VStr (mood_name m)); ("mood_score", VFloat score)]
            | None => []
            end).

(** The history serialized as the specification words it: the lines
    "{speaker}: {text}", in order, joined by newlines. *)
Definition serialize (history : list entry) : string :=
  String.concat nl (map (fun e => speaker e ++ ": " ++ text e) history).

(** SessionParameters. *)
Record session_parameters := mkParams {
  situation : string;
  personality : string;
  style : string;
  role : string
}.

Definition params_fields (p : session_parameters) : list (string * value) :=
  [("situation", VStr (situation p));
   ("personality", VStr (personality p));
   ("style", VStr (style p));
   ("role", VStr (role p))].

(** ** A client *)

(** Modelled from the spec: the client, which is not part of [app.py].  It
    holds the session ("passed back and forth between client and server on
    every turn"): each request carries the four parameters and the history
    the previous response returned. *)
Definition start_request (p : session_parameters) : value :=
  VDict (params_fields p).

Definition message_fields
  (p : session_parameters) (history : list value) (user_message : string)
  : list (string * value) :=
  [("conversation_history", VList history); ("message", VStr user_message)]
  ++ params_fields p.

Definition message_request
  (p : session_parameters) (history : list value) (user_message : string) : value :=
  VDict (message_fields p history user_message).

(** The history of a response with status 200. *)
Definition returned_history (r : response) : option (list value) :=
  if status r =? 200 then
    match body_field "conversation_history" r with
    | Some (VList entries) => Some entries
    | _ => None
    end
  else None.

(** Modelled from the spec: one [/message] call per user message, each
    carrying the history the previous response returned; [None] as soon as
    a call fails. *)
Fixpoint turns (E : env) (p : session_parameters) (history : list value)
  (user_messages : list string) (st : state) : option (list value) * state :=
  match user_messages with
  | [] => (Some history, st)
  | m :: rest =>
      match message E (message_request p history m) st with
      | (Ok r, st') =>
          match returned_history r with
          | Some history' => turns E p history' rest st'
          | None => (None, st')
          end
      | (Raise _, st') => (None, st')
      end
  end.

(** Modelled from the spec: [/start], then the turns. *)
Definition session (E : env) (p : session_parameters)
  (user_messages : list string) (st : state) : option (list value) * state :=
  match start_session E (start_request p) st with
  | (Ok r, st') =>
      match returned_history r with
      | Some history => turns E p history user_messages st'
      | None => (None, st')
      end
  | (Raise _, st') => (None, st')
  end.

(** ** States after an effect *)

Definition with_launch (st : state) (argv : list string) : state :=
  mkState (launched st ++ [argv]) (printed st) (local_history st).

Definition with_print (st : state) (line : string) : state :=
  mkState (launched st) (printed st ++ [line]) (local_history st).

(** The command line of [call_ollama]. *)
Definition ollama_argv (model prompt : string) : list string :=
  ["ollama"; "run"; model; prompt].

(** What the launch of [call_ollama] answers in state [st]. *)
Definition launch_result (E : env) (prompt model : string) (st : state)
  : process :=
  subprocess_run E (List.length (launched st)) (ollama_argv model prompt).

(** ** Well-formed requests *)

(** A field that is empty or absent: [data.get(key)] is [None], the empty
    string, or another value Python counts as false. *)
Definition empty_or_absent (key : string) (fields : list (string * value)) : bool :=
  negb (truthy (field key fields)).

Definition parameter_names : list string :=
  ["situation"; "personality"; "style"; "role"].

(** The request carries the four session parameters [p] as strings. *)
Definition carries (fields : list (string * value)) (p : session_parameters) : Prop :=
  field "situation" fields = VStr (situation p)
  /\ field "personality" fields = VStr (personality p)
  /\ field "style" fields = VStr (style p)
  /\ field "role" fields = VStr (role p).

Definition nonempty (s : string) : bool := negb (s =? "")%string.

Definition all_nonempty (p : session_parameters) : bool :=
  nonempty (situation p) && nonempty (personality p)
  && nonempty (style p) && nonempty (role p).

(** The prompt [start_session] builds for the parameters [p]. *)
Definition start_prompt (E : env) (p : session_parameters) : string :=
  initial_prompt (str_lower E (situation p)) (str_lower E (personality p))
                 (style p) (role p).

(** The body [start_session] answers with. *)
Definition start_body (fields : list (string * value)) (patient_response : string)
  : list (string * value) :=
  [("response", VStr patient_response);
   ("conversation_history", VList [seed_entry patient_response]);
   ("situation", field "situation" fields);
   ("personality", field "personality" fields);
   ("style", field "style" fields);
   ("role", field "role" fields)].

(** ** [/message], step by step *)

Definition with_local (st : state) (local : option value) : state :=
  mkState (launched st) (printed st) local.

(** The result of a computation that leaves the state alone. *)
Definition result_of {A} (m : M A) : outcome A := fst (m init).

(** The two launches of [message]. *)
Definition turn_argv (E : env) (fields : list (string * value))
  (s p context : string) : list string :=
  ollama_argv default_model
    (turn_prompt (fmt E (field "role" fields)) (str_lower E s) (str_lower E p)
       (fmt E (field "style" fields)) context).

Definition critique_argv (E : env) (fields : list (string * value)) : list string :=
  ollama_argv default_model
    (critique_prompt (fmt E (field "role" fields)) (fmt E (field "message" fields))).

(** The body [message] answers with on success. *)
Definition message_body (E : env) (history : value)
  (patient_response evaluation : string) : list (string * value) :=
  let eval_text := str_strip E evaluation in
  [("conversation_history", history);
   ("response", VStr patient_response);
   ("evaluation",
    VDict [("color", VStr (color_name (classify_color (sentiment_polarity E eval_text))));
           ("text", VStr eval_text)])].

(** The body [message] answers with from its [except] clause. *)
Definition error_body (E : env) (e : exn) (history : value) : list (string * value) :=
  [("error", VStr (str_exn E e));
   ("conversation_history", history);
   ("evaluation", VDict [("color", VStr "RED");
                         ("text", VStr ("Error: " ++ str_exn E e))])].

(** What is left of [message_try] once the user's entry is appended; the
    local [conversation_history] is bound to a list by then. *)
Definition message_rest (E : env) (fields : list (string * value)) : M response :=
  history <- read_history ;;
  context <- conversation_context E history ;;
  situation_lower <- lower E (field "situation" fields) ;;
  personality_lower <- lower E (field "personality" fields) ;;
  patient_response <-
    call_ollama E
      (turn_prompt (fmt E (field "role" fields)) situation_lower personality_lower
         (fmt E (field "style" fields)) context)
      default_model ;;
  append_history (patient_entry E patient_response) ;;;
  evaluation <- call_ollama E (critique_prompt (fmt E (field "role" fields))
                                 (fmt E (field "message" fields)))
                            default_model ;;
  history <- read_history ;;
  ret (jsonify (message_body E history patient_response evaluation)).

(** A runner whose launches all end in an exit status or a timeout. *)
Definition runner_handled (E : env) : Prop :=
  forall n argv, handled (subprocess_run E n argv) = true.

(** ** Histories *)

(** An entry the generator of lines 91 and 164 can format: a JSON object
    with a speaker and a text. *)
Definition well_formed_entry (v : value) : bool :=
  match v with
  | VDict fields =>
      match lookup "speaker" fields, lookup "text" fields with
      | Some _, Some _ => true
      | _, _ => false
      end
  | _ => false
  end.

(** The line of such an entry. *)
Definition line_of (E : env) (v : value) : string :=
  match v with
  | VDict fields => fmt E (field "speaker" fields) ++ ": " ++ fmt E (field "text" fields)
  | _ => ""
  end.

(** The prompt [evaluate] builds for a history. *)
Definition evaluate_prompt (E : env) (entries : list value) : string :=
  session_prompt (join nl (map (line_of E) entries)).

(** ** A concrete environment *)

Module Demo.

(** [lower] and [strip] on ASCII text. *)
Definition lower_char (c : ascii) : ascii :=
  let n := nat_of_ascii c in
  if andb (Nat.leb 65 n) (Nat.leb n 90) then ascii_of_nat (n + 32) else c.

Fixpoint lower (s : string) : string :=
  match s with
  | EmptyString => EmptyString
  | String c rest => String (lower_char c) (lower rest)
  end.

Definition is_space (c : ascii) : bool :=
  let n := nat_of_ascii c in
  orb (andb (Nat.leb 9 n) (Nat.leb n 13))
      (orb (andb (Nat.leb 28 n) (Nat.leb n 31)) (Nat.eqb n 32)).

Fixpoint lstrip (s : string) : string :=
  match s with
  | EmptyString => EmptyString
  | String c rest => if is_space c then lstrip rest else s
  end.

Fixpoint rstrip (s : string) : string :=
  match s with
  | EmptyString => EmptyString
  | String c rest =>
      match rstrip rest with
      | EmptyString => if is_space c then EmptyString else String c EmptyString
      | rest' => String c rest'
      end
  end.

Definition strip (s : string) : string := rstrip (lstrip s).

(** [str] on [None] and booleans; the demonstrations format nothing else. *)
Definition str (v : value) : string :=
  match v with
  | VNone => "None"
  | VBool true => "True"
  | VBool false => "False"
  | VStr s => s
  | _ => "<" ++ type_name v ++ ">"
  end.

Definition quoted (s : string) : string := "'" ++ s ++ "'".

Definition exn_text (e : exn) : string :=
  match e with
  | AttributeError type attr =>
      quoted type ++ " object has no attribute " ++ quoted attr
  | KeyError key => quoted key
  | TypeError type => quoted type ++ " object is not subscriptable"
  | UnboundLocalError name =>
      "cannot access local variable " ++ quoted name
      ++ " where it is not associated with a value"
  | CalledProcessError _ cmd =>
      "Command " ++ quoted (join " " cmd) ++ " returned non-zero exit status 1."
  | TimeoutExpired cmd =>
      "Command " ++ quoted (join " " cmd) ++ " timed out after 30 seconds"
  | FileNotFoundError filename =>
      "[Errno 2] No such file or directory: " ++ quoted filename
  | ValueError msg => msg
  end.

(** A lexicon of two words: [0.5] for "better", [-0.6] for "worse". *)
Fixpoint contains (word s : string) : bool :=
  orb (prefix word s)
      match s with
      | EmptyString => false
      | String _ rest => contains word rest
      end.

Definition lit_0_5 : float := S754_finite false 4503599627370496 (-53).
Definition lit_0_6 : float := S754_finite false 5404319552844595 (-53).

Definition polarity (s : string) : float :=
  if contains "better" s then lit_0_5
  else if contains "worse" s then neg lit_0_6
  else lit_0.

(** A runner that answers every prompt. *)
Definition answering (n : nat) (argv : list string) : process :=
  if Nat.even n then Completed ("  I feel a little better today." ++ nl)
  else Completed ("Supportive, could explore feelings more." ++ nl).

(** A runner that is not installed. *)
Definition missing (n : nat) (argv : list string) : process :=
  Failed (FileNotFoundError "ollama").

(** A runner that exits with status 1, and one that hangs. *)
Definition failing (n : nat) (argv : list string) : process :=
  Failed (CalledProcessError 1 argv).

Definition hanging (n : nat) (argv : list string) : process :=
  Failed (TimeoutExpired argv).

(** A runner that answers once and is gone afterwards. *)
Definition vanishing (n : nat) (argv : list string) : process :=
  match n with
  | O => Completed ("I feel worse than last week." ++ nl)
  | S _ => Failed (FileNotFoundError "ollama")
  end.

Definition env_with (runner : nat -> list string -> process) : env :=
  mkEnv runner strip lower str exn_text polarity.

Definition params : session_parameters :=
  mkParams "Generalized Anxiety" "Avoidant" "formal" "therapist".

End Demo.

(** ** Vocabulary of the further properties *)

(** The one command line the handlers use: [ollama run llama3.2:3b], then
    a prompt. *)
Definition default_launch (argv : list string) : Prop :=
  exists prompt, argv = ollama_argv default_model prompt.

(** The line [call_ollama] prints for an outcome of the runner, if any. *)
Definition printed_for (E : env) (model : string) (p : process) : list string :=
  match p with
  | Failed (CalledProcessError returncode cmd) =>
      ["Error calling LLM (" ++ model ++ "): "
       ++ str_exn E (CalledProcessError returncode cmd)]
  | Failed (TimeoutExpired _) => ["LLM call timed out for model " ++ model]
  | _ => []
  end.

(** The exception the generator of lines 91 and 164 raises on an entry, if
    it raises one: the entry is no JSON object, or lacks the speaker, or has
    the speaker and lacks the text. *)
Definition entry_error (v : value) : option exn :=
  match v with
  | VDict fields =>
      match lookup "speaker" fields, lookup "text" fields with
      | None, _ => Some (KeyError "speaker")
      | Some _, None => Some (KeyError "text")
      | Some _, Some _ => None
      end
  | _ => Some (TypeError (type_name v))
  end.

Definition is_list (v : value) : bool :=
  match v with VList _ => true | _ => false end.

Definition is_str (v : value) : bool :=
  match v with VStr _ => true | _ => false end.

Definition is_dict (v : value) : bool :=
  match v with VDict _ => true | _ => false end.

(** Speaker and text of an entry. *)
Definition entry_speaker (v : value) : value :=
  match v with VDict fields => field "speaker" fields | _ => VNone end.

Definition entry_text (v : value) : value :=
  match v with VDict fields => field "text" fields | _ => VNone end.

(** The buckets in order, worst first. *)
Definition color_rank (c : color) : Z :=
  match c with RED => 0 | YELLOW => 1 | GREEN => 2 end.

Definition mood_rank (m : mood) : Z :=
  match m with Negative => 0 | Neutral => 1 | Positive => 2 end.

(** Python's [x == y] on floats. *)
Definition float_eq (x y : float) : bool := SFeqb x y.

(** A float that is a number, as a triple ordered lexicographically the way
    [SFcompare] orders numbers: sign class, then exponent, then mantissa. *)
Definition float_key (x : float) : Z * Z * Z :=
  match x with
  | S754_infinity true => (-2, 0, 0)
  | S754_finite true m e => (-1, - e, - Zpos m)
  | S754_zero _ => (0, 0, 0)
  | S754_nan => (0, 0, 0)
  | S754_finite false m e => (1, e, Zpos m)
  | S754_infinity false => (2, 0, 0)
  end.

Definition key_compare (a b : Z * Z * Z) : comparison :=
  let '(a1, a2, a3) := a in
  let '(b1, b2, b3) := b in
  match a1 ?= b1 with
  | Eq => match a2 ?= b2 with
          | Eq => a3 ?= b3
          | c => c
          end
  | c => c
  end.

(** The strict order [key_compare] decides. *)
Definition key_lt (a b : Z * Z * Z) : Prop :=
  let '(a1, a2, a3) := a in
  let '(b1, b2, b3) := b in
  a1 < b1 \/ (a1 = b1 /\ (a2 < b2 \/ (a2 = b2 /\ a3 < b3))).

(** The launches added between two states: at most [n], all of them
    [ollama run llama3.2:3b <prompt>]. *)
Definition launches_within (n : nat) (st st' : state) : Prop :=
  exists l,
    launched st' = (launched st ++ l)%list
    /\ (List.length l <= n)%nat
    /\ Forall default_launch l.

(** The entries one turn adds to the history: the user's, then the
    patient's. *)
Definition turn_entries (E : env) (turn : string * string) : list value :=
  [you_entry (VStr (fst turn)); patient_entry E (snd turn)].

(** A history: the entry of [/start], then the entries of the turns. *)
Definition transcript (E : env) (first_reply : string)
  (turns : list (string * string)) : list value :=
  seed_entry first_reply :: flat_map (turn_entries E) turns.

(** * Properties *)

(** ** Float literals *)

Module Literals.

(** The constants of [Float] are binary64 values: 53 bits of precision,
    exponents below 1024. *)
Lemma literals_binary64 :
  valid_binary 53 1024 lit_0_3 = true
  /\ valid_binary 53 1024 (neg lit_0_3) = true
  /\ valid_binary 53 1024 lit_1 = true
  /\ valid_binary 53 1024 lit_0 = true.
Proof. repeat split. Qed.

(** [lit_0_3] is [m * 2^-54] for the integer [m] nearest to [3/10 * 2^54]:
    it is the binary64 value the literal [0.3] is rounded to, which lies
    just below 3/10. *)
Lemma lit_0_3_nearest :
  lit_0_3 = S754_finite false 5404319552844595 (-54)
  /\ 3 * 2 ^ 54 - 10 * 5404319552844595 = 2
  /\ 2 * 2 < 10.
Proof. repeat split. Qed.

(** [lit_1] is [2^52 * 2^-52]. *)
Lemma lit_1_exact :
  lit_1 = S754_finite false (Z.to_pos (2 ^ 52)) (-52).
Proof. reflexivity. Qed.

End Literals.

(** ** Float comparisons *)

Module FloatFacts.

Lemma compare_swap (x y : float) :
  SFcompare y x = option_map CompOpp (SFcompare x y).
Proof.
  destruct x as [sx | sx | | sx mx ex], y as [sy | sy | | sy my ey];
    try reflexivity;
    try (destruct sx; reflexivity);
    try (destruct sy; reflexivity);
    try (destruct sx, sy; reflexivity).
  destruct sx, sy; try reflexivity; cbn [SFcompare option_map];
    rewrite (Z.compare_antisym ex ey);
    change (Pos.compare_cont Eq my mx) with (Pos.compare my mx);
    change (Pos.compare_cont Eq mx my) with (Pos.compare mx my);
    rewrite (Pos.compare_antisym mx my);
    destruct (ex ?= ey), (mx ?= my)%positive; reflexivity.
Qed.

Lemma compare_number (x y : float) :
  is_nan x = false -> is_nan y = false -> exists c, SFcompare x y = Some c.
Proof.
  destruct x, y; cbn; intros; try discriminate; eauto.
Qed.

(** On numbers, [x > y] is the negation of [x <= y]. *)
Lemma gt_not_le (x y : float) :
  is_nan x = false -> is_nan y = false -> gt x y = negb (le x y).
Proof.
  intros Hx Hy. unfold gt, le, SFltb, SFleb.
  rewrite (compare_swap x y).
  destruct (compare_number x y Hx Hy) as [c ->]. destruct c; reflexivity.
Qed.

(** On numbers, [x < y] is the negation of [y <= x]. *)
Lemma lt_not_ge (x y : float) :
  is_nan x = false -> is_nan y = false -> lt x y = negb (le y x).
Proof.
  intros Hx Hy. exact (gt_not_le y x Hy Hx).
Qed.

(** A NaN compares false with everything. *)
Lemma nan_le_r (x y : float) : is_nan y = true -> le x y = false.
Proof.
  destruct y; try discriminate. destruct x; reflexivity.
Qed.

Lemma polarity_score_number (s : float) :
  polarity_score s = true -> is_nan s = false.
Proof.
  unfold polarity_score. intros H. apply andb_prop in H as [H _].
  destruct (is_nan s) eqn:Hs; [|reflexivity].
  rewrite (nan_le_r _ _ Hs) in H. discriminate.
Qed.

(** Above [0.3] is above [-0.3]. *)
Lemma gt_lit_trans (s : float) :
  gt s lit_0_3 = true -> gt s (neg lit_0_3) = true.
Proof.
  unfold gt, SFltb.
  destruct s as [[|] | [|] | | [|] mx ex]; intros H;
    first [reflexivity | discriminate H].
Qed.

(** Below [-0.3] is not above [0.3]. *)
Lemma lt_lit_not_gt (s : float) :
  lt s (neg lit_0_3) = true -> gt s lit_0_3 = false.
Proof.
  unfold gt, lt, SFltb.
  destruct s as [[|] | [|] | | [|] mx ex]; intros H;
    first [reflexivity | discriminate H].
Qed.

Lemma is_nan_lit : is_nan lit_0_3 = false /\ is_nan (neg lit_0_3) = false.
Proof. split; reflexivity. Qed.

End FloatFacts.

(** ** C1, C2: the two classifiers *)

(** Not-a-number is no polarity score; both classifiers send it to their
    last branch. *)
Remark classify_nan :
  polarity_score S754_nan = false
  /\ classify_mood S754_nan = Neutral
  /\ classify_color S754_nan = RED.
Proof. repeat split. Qed.

(** A score equal to [-0.3] is Neutral and RED. *)
Lemma mood_color_agree (s : float) :
  polarity_score s = true ->
  le s (neg lit_0_3) = true -> lt s (neg lit_0_3) = false ->
  classify_mood s = Neutral /\ classify_color s = RED.
Proof.
  intros Hs Hle Hlt. apply FloatFacts.polarity_score_number in Hs.
  destruct FloatFacts.is_nan_lit as [Hp Hn].
  pose proof (FloatFacts.gt_not_le s (neg lit_0_3) Hs Hn) as Hg.
  rewrite Hle in Hg. cbn [negb] in Hg.
  assert (Hg3 : gt s lit_0_3 = false).
  { destruct (gt s lit_0_3) eqn:H; [|reflexivity].
    now rewrite (FloatFacts.gt_lit_trans s H) in Hg. }
  unfold classify_mood, classify_color. now rewrite Hg3, Hlt, Hg.
Qed.

(** C1.  For every polarity score [s], the colour mapper of [/message]
    gives GREEN exactly when [s > 0.3], YELLOW exactly when
    [-0.3 < s <= 0.3] and RED exactly when [s <= -0.3]; at [s = -0.3] the
    mood classifier gives Neutral and the colour mapper gives RED. *)
Theorem color_thresholds (s : float) :
  polarity_score s = true ->
  (classify_color s = GREEN <-> gt s lit_0_3 = true)
  /\ (classify_color s = YELLOW <->
        gt s (neg lit_0_3) = true /\ le s lit_0_3 = true)
  /\ (classify_color s = RED <-> le s (neg lit_0_3) = true)
  /\ classify_mood (neg lit_0_3) = Neutral
  /\ classify_color (neg lit_0_3) = RED.
Proof.
  intros Hs. apply FloatFacts.polarity_score_number in Hs.
  destruct FloatFacts.is_nan_lit as [Hp Hn].
  pose proof (FloatFacts.gt_not_le s lit_0_3 Hs Hp) as Hle.
  pose proof (FloatFacts.gt_not_le s (neg lit_0_3) Hs Hn) as Hle'.
  pose proof (FloatFacts.gt_lit_trans s) as Htr.
  unfold classify_color.
  destruct (gt s lit_0_3) eqn:Hg.
  - rewrite (Htr eq_refl) in *.
    destruct (le s lit_0_3); [discriminate|].
    destruct (le s (neg lit_0_3)); [discriminate|].
    repeat split; intros; try discriminate; try tauto.
    destruct H; discriminate.
  - destruct (le s lit_0_3); [|discriminate].
    destruct (gt s (neg lit_0_3)) eqn:Hg';
      (destruct (le s (neg lit_0_3)); try discriminate);
      repeat split; intros; try discriminate; try tauto;
      destruct H; discriminate.
Qed.

Lemma color_thresholds_witness :
  polarity_score (neg lit_0_3) = true
  /\ (classify_color (neg lit_0_3) = RED <-> le (neg lit_0_3) (neg lit_0_3) = true).
Proof.
  split; [reflexivity | apply (color_thresholds (neg lit_0_3)); reflexivity].
Defined.

(** C2.  For every mood score [s], the mood classifier of [/message] gives
    Positive exactly when [s > 0.3], Negative exactly when [s < -0.3], and
    Neutral otherwise, that is exactly when [-0.3 <= s <= 0.3]. *)
Theorem mood_thresholds (s : float) :
  polarity_score s = true ->
  (classify_mood s = Positive <-> gt s lit_0_3 = true)
  /\ (classify_mood s = Negative <-> lt s (neg lit_0_3) = true)
  /\ (classify_mood s = Neutral <->
        gt s lit_0_3 = false /\ lt s (neg lit_0_3) = false)
  /\ (classify_mood s = Neutral <->
        le (neg lit_0_3) s = true /\ le s lit_0_3 = true).
Proof.
  intros Hs. apply FloatFacts.polarity_score_number in Hs.
  destruct FloatFacts.is_nan_lit as [Hp Hn].
  pose proof (FloatFacts.gt_not_le s lit_0_3 Hs Hp) as Hle.
  pose proof (FloatFacts.lt_not_ge s (neg lit_0_3) Hs Hn) as Hle'.
  pose proof (FloatFacts.lt_lit_not_gt s) as Htr.
  unfold classify_mood.
  destruct (gt s lit_0_3) eqn:Hg.
  - destruct (lt s (neg lit_0_3)) eqn:Hl; [specialize (Htr eq_refl); discriminate|].
    destruct (le s lit_0_3); [discriminate|].
    repeat split; intros; try discriminate; try tauto;
      destruct H; discriminate.
  - destruct (le s lit_0_3); [|discriminate].
    destruct (lt s (neg lit_0_3)) eqn:Hl;
      (destruct (le (neg lit_0_3) s); try discriminate);
      repeat split; intros; try discriminate; try tauto;
      destruct H; discriminate.
Qed.

Lemma mood_thresholds_witness :
  polarity_score Demo.lit_0_5 = true
  /\ (classify_mood Demo.lit_0_5 = Positive <-> gt Demo.lit_0_5 lit_0_3 = true).
Proof.
  split; [reflexivity | apply (mood_thresholds Demo.lit_0_5); reflexivity].
Defined.

(** ** C3: the LLM invoker *)

Section Invoker.

Variable E : env.

Lemma call_ollama_completed prompt model st stdout :
  launch_result E prompt model st = Completed stdout ->
  call_ollama E prompt model st
  = (Ok (str_strip E stdout), with_launch st (ollama_argv model prompt)).
Proof.
  unfold launch_result, call_ollama, try_except, bind, run, ollama_argv.
  intros ->. reflexivity.
Qed.

Lemma call_ollama_nonzero prompt model st returncode cmd :
  launch_result E prompt model st = Failed (CalledProcessError returncode cmd) ->
  call_ollama E prompt model st
  = (Ok ("LLM error: " ++ str_exn E (CalledProcessError returncode cmd)),
     with_print (with_launch st (ollama_argv model prompt))
       ("Error calling LLM (" ++ model ++ "): "
        ++ str_exn E (CalledProcessError returncode cmd))).
Proof.
  unfold launch_result, call_ollama, try_except, bind, run, ollama_argv.
  intros ->. reflexivity.
Qed.

Lemma call_ollama_timeout prompt model st cmd :
  launch_result E prompt model st = Failed (TimeoutExpired cmd) ->
  call_ollama E prompt model st
  = (Ok "LLM request timed out.",
     with_print (with_launch st (ollama_argv model prompt))
       ("LLM call timed out for model " ++ model)).
Proof.
  unfold launch_result, call_ollama, try_except, bind, run, ollama_argv.
  intros ->. reflexivity.
Qed.

Lemma call_ollama_other prompt model st e :
  launch_result E prompt model st = Failed e ->
  handled (Failed e) = false ->
  call_ollama E prompt model st
  = (Raise e, with_launch st (ollama_argv model prompt)).
Proof.
  unfold launch_result, call_ollama, try_except, bind, run, ollama_argv.
  intros -> He. destruct e; try discriminate He; reflexivity.
Qed.

(** Whenever the runner's outcome is one [call_ollama] handles, the call
    returns [reply_of] that outcome. *)
Lemma call_ollama_handled prompt model st :
  handled (launch_result E prompt model st) = true ->
  exists st',
    call_ollama E prompt model st
    = (Ok (reply_of E (launch_result E prompt model st)), st')
    /\ launched st' = (launched st ++ [ollama_argv model prompt])%list
    /\ local_history st' = local_history st.
Proof.
  intros H. destruct (launch_result E prompt model st) as [out | e] eqn:Hp.
  - rewrite (call_ollama_completed _ _ _ _ Hp). eauto.
  - destruct e; try discriminate H.
    + rewrite (call_ollama_nonzero _ _ _ _ _ Hp). eauto.
    + rewrite (call_ollama_timeout _ _ _ _ Hp). eauto.
Qed.

(** [call_ollama] launches the runner exactly once, whatever happens, and
    leaves the caller's locals alone. *)
Lemma call_ollama_launches prompt model st :
  launched (snd (call_ollama E prompt model st))
  = (launched st ++ [ollama_argv model prompt])%list
  /\ local_history (snd (call_ollama E prompt model st)) = local_history st.
Proof.
  unfold call_ollama, try_except, bind, run, ollama_argv.
  destruct (subprocess_run E _ _) as [out | e]; [split; reflexivity|].
  destruct e; split; reflexivity.
Qed.

(** An exception leaves [call_ollama] only if the runner raised it and it
    is neither a non-zero exit nor a timeout. *)
Lemma call_ollama_raise_inv prompt model st e st' :
  call_ollama E prompt model st = (Raise e, st') ->
  launch_result E prompt model st = Failed e /\ handled (Failed e) = false.
Proof.
  unfold launch_result, call_ollama, try_except, bind, run, ollama_argv.
  destruct (subprocess_run E _ _) as [out | e0]; [discriminate|].
  destruct e0; cbn; intros H; inversion H; subst; split; reflexivity.
Qed.

End Invoker.

(** C3, as amended.  For every prompt and model: when the model runner
    exits with status 0, [call_ollama] returns its trimmed standard output;
    when it exits with another status, [call_ollama] returns "LLM error: "
    followed by the error detail; when it times out, [call_ollama] returns
    exactly "LLM request timed out."; in none of these three cases does it
    raise.  Any other exception of the launch reaches the caller. *)
Theorem call_ollama_outcomes (E : env) (prompt model : string) (st : state) :
  (forall stdout,
      launch_result E prompt model st = Completed stdout ->
      fst (call_ollama E prompt model st) = Ok (str_strip E stdout))
  /\ (forall returncode cmd,
         launch_result E prompt model st
         = Failed (CalledProcessError returncode cmd) ->
         fst (call_ollama E prompt model st)
         = Ok ("LLM error: " ++ str_exn E (CalledProcessError returncode cmd)))
  /\ (forall cmd,
         launch_result E prompt model st = Failed (TimeoutExpired cmd) ->
         fst (call_ollama E prompt model st) = Ok "LLM request timed out.")
  /\ (forall e,
         launch_result E prompt model st = Failed e ->
         handled (Failed e) = false ->
         fst (call_ollama E prompt model st) = Raise e).
Proof.
  repeat split; intros.
  - now rewrite (call_ollama_completed E _ _ _ _ H).
  - now rewrite (call_ollama_nonzero E _ _ _ _ _ H).
  - now rewrite (call_ollama_timeout E _ _ _ _ H).
  - now rewrite (call_ollama_other E _ _ _ _ H H0).
Qed.

Lemma call_ollama_outcomes_witness :
  fst (call_ollama (Demo.env_with Demo.answering) "Hello" default_model init)
  = Ok "I feel a little better today."
  /\ fst (call_ollama (Demo.env_with Demo.failing) "Hello" default_model init)
     = Ok ("LLM error: "
           ++ Demo.exn_text (CalledProcessError 1 (ollama_argv default_model "Hello")))
  /\ fst (call_ollama (Demo.env_with Demo.hanging) "Hello" default_model init)
     = Ok "LLM request timed out."
  /\ fst (call_ollama (Demo.env_with Demo.missing) "Hello" default_model init)
     = Raise (FileNotFoundError "ollama").
Proof.
  split; [|split; [|split]].
  - destruct (call_ollama_outcomes (Demo.env_with Demo.answering) "Hello"
                default_model init) as (Hok & _).
    exact (Hok _ eq_refl).
  - destruct (call_ollama_outcomes (Demo.env_with Demo.failing) "Hello"
                default_model init) as (_ & Hnonzero & _).
    exact (Hnonzero _ _ eq_refl).
  - destruct (call_ollama_outcomes (Demo.env_with Demo.hanging) "Hello"
                default_model init) as (_ & _ & Htimeout & _).
    exact (Htimeout _ eq_refl).
  - destruct (call_ollama_outcomes (Demo.env_with Demo.missing) "Hello"
                default_model init) as (_ & _ & _ & Hother).
    exact (Hother _ eq_refl eq_refl).
Defined.

(** C3 as stated fails: with the runner not installed, the launch raises
    [FileNotFoundError], which neither [except] clause of [call_ollama]
    names, and the exception reaches the caller. *)
Lemma call_ollama_can_raise :
  call_ollama (Demo.env_with Demo.missing) "Hello" default_model init
  = (Raise (FileNotFoundError "ollama"),
     with_launch init (ollama_argv default_model "Hello")).
Proof. reflexivity. Qed.

(** The demonstration runners that [call_ollama] copes with. *)
Lemma answering_handled : runner_handled (Demo.env_with Demo.answering).
Proof.
  intros n argv. unfold Demo.env_with, subprocess_run, Demo.answering.
  destruct (Nat.even n); reflexivity.
Qed.

Lemma failing_handled : runner_handled (Demo.env_with Demo.failing).
Proof. intros n argv. reflexivity. Qed.

Lemma hanging_handled : runner_handled (Demo.env_with Demo.hanging).
Proof. intros n argv. reflexivity. Qed.

(** ** The monad *)

Lemma bind_ok {A B} (m : M A) (k : A -> M B) st a st1 :
  m st = (Ok a, st1) -> bind m k st = k a st1.
Proof. unfold bind. now intros ->. Qed.

Lemma bind_raise {A B} (m : M A) (k : A -> M B) st e st1 :
  m st = (Raise e, st1) -> bind m k st = (Raise e, st1).
Proof. unfold bind. now intros ->. Qed.

Lemma bind_ok_inv {A B} (m : M A) (k : A -> M B) st b st' :
  bind m k st = (Ok b, st') ->
  exists a st1, m st = (Ok a, st1) /\ k a st1 = (Ok b, st').
Proof.
  unfold bind. destruct (m st) as [[a | e] st1]; [eauto | discriminate].
Qed.

Lemma bind_raise_inv {A B} (m : M A) (k : A -> M B) st e st' :
  bind m k st = (Raise e, st') ->
  m st = (Raise e, st')
  \/ exists a st1, m st = (Ok a, st1) /\ k a st1 = (Raise e, st').
Proof.
  unfold bind. destruct (m st) as [[a | e0] st1]; intros H.
  - right. exists a, st1. split; [reflexivity | exact H].
  - left. inversion H; reflexivity.
Qed.

(** ** Values *)

Lemma truthy_str (s : string) : truthy (VStr s) = nonempty s.
Proof. reflexivity. Qed.

Lemma absent_is_empty key fields :
  lookup key fields = None -> empty_or_absent key fields = true.
Proof. unfold empty_or_absent, field. now intros ->. Qed.

Lemma empty_string_is_empty key fields :
  lookup key fields = Some (VStr "") -> empty_or_absent key fields = true.
Proof. unfold empty_or_absent, field. now intros ->. Qed.

Lemma all_four fields :
  all [field "situation" fields; field "personality" fields;
       field "style" fields; field "role" fields] = false
  <-> exists key, In key parameter_names /\ empty_or_absent key fields = true.
Proof.
  unfold all, empty_or_absent, parameter_names. cbn [forallb In].
  split.
  - intros H.
    destruct (truthy (field "situation" fields)) eqn:H1;
      [|exists "situation"; rewrite H1; auto].
    destruct (truthy (field "personality" fields)) eqn:H2;
      [|exists "personality"; rewrite H2; auto].
    destruct (truthy (field "style" fields)) eqn:H3;
      [|exists "style"; rewrite H3; auto].
    destruct (truthy (field "role" fields)) eqn:H4;
      [discriminate H|exists "role"; rewrite H4; auto 6].
  - intros (key & Hin & Hk). apply negb_true_iff in Hk.
    destruct Hin as [<- | [<- | [<- | [<- | []]]]]; rewrite Hk;
      rewrite ?andb_false_r; reflexivity.
Qed.

(** ** [/start] *)

Section Start.

Variable E : env.

(** On a JSON object, [start_session] is its validation followed by the
    prompt and the launch. *)
Lemma start_session_dict fields st :
  start_session E (VDict fields) st
  = if negb (all [field "situation" fields; field "personality" fields;
                  field "style" fields; field "role" fields])
    then (Ok (jsonify_status [("error", VStr "Missing parameters")] 400), st)
    else
      (situation_lower <- lower E (field "situation" fields) ;;
       personality_lower <- lower E (field "personality" fields) ;;
       patient_response <-
         call_ollama E
           (initial_prompt situation_lower personality_lower
              (fmt E (field "style" fields)) (fmt E (field "role" fields)))
           default_model ;;
       ret (jsonify (start_body fields patient_response))) st.
Proof.
  unfold start_session, dict_get, field.
  cbn [bind ret].
  destruct (negb _); reflexivity.
Qed.

Lemma start_session_missing fields st :
  (exists key, In key parameter_names /\ empty_or_absent key fields = true) ->
  start_session E (VDict fields) st
  = (Ok (jsonify_status [("error", VStr "Missing parameters")] 400), st).
Proof.
  intros H. apply all_four in H. rewrite start_session_dict, H. reflexivity.
Qed.

Lemma carries_all fields p :
  carries fields p -> all_nonempty p = true ->
  all [field "situation" fields; field "personality" fields;
       field "style" fields; field "role" fields] = true.
Proof.
  intros (H1 & H2 & H3 & H4) Hp. rewrite H1, H2, H3, H4.
  unfold all. cbn [forallb]. rewrite !truthy_str.
  unfold all_nonempty in Hp. rewrite andb_true_r, !andb_assoc. exact Hp.
Qed.

(** With four non-empty strings, [start_session] is the launch on the
    initial prompt followed by the seeded answer. *)
Lemma start_session_proceeds fields p st :
  carries fields p -> all_nonempty p = true ->
  start_session E (VDict fields) st
  = (patient_response <- call_ollama E (start_prompt E p) default_model ;;
     ret (jsonify (start_body fields patient_response))) st.
Proof.
  intros Hc Hp. rewrite start_session_dict, (carries_all _ _ Hc Hp).
  destruct Hc as (H1 & H2 & H3 & H4). rewrite H1, H2, H3, H4.
  reflexivity.
Qed.

(** A response of [start_session] with status 200 comes from a JSON object
    whose situation and personality are strings, after one launch. *)
Lemma start_session_ok_inv data st r st' :
  start_session E data st = (Ok r, st') ->
  status r = 200 ->
  exists fields s p reply,
    data = VDict fields
    /\ all [field "situation" fields; field "personality" fields;
            field "style" fields; field "role" fields] = true
    /\ field "situation" fields = VStr s
    /\ field "personality" fields = VStr p
    /\ call_ollama E
         (initial_prompt (str_lower E s) (str_lower E p)
            (fmt E (field "style" fields)) (fmt E (field "role" fields)))
         default_model st = (Ok reply, st')
    /\ r = jsonify (start_body fields reply).
Proof.
  intros H H200.
  destruct data as [| | | | | |fields]; try discriminate H.
  rewrite start_session_dict in H.
  destruct (all _) eqn:Hall; cbn [negb] in H.
  2:{ inversion H; subst. discriminate H200. }
  destruct (field "situation" fields) as [| | | |s| |] eqn:Hs; try discriminate H.
  destruct (field "personality" fields) as [| | | |p| |] eqn:Hp; try discriminate H.
  unfold lower in H. cbn [bind ret] in H.
  apply bind_ok_inv in H as (reply & st1 & Hcall & Hret).
  inversion Hret; subst.
  exists fields, s, p, reply. rewrite Hs, Hp. auto 6.
Qed.

End Start.

Lemma truthy_present key fields :
  truthy (field key fields) = true -> lookup key fields = Some (field key fields).
Proof.
  unfold field. destruct (lookup key fields); [reflexivity | discriminate].
Qed.

(** C10.  A [/start] request that succeeds is answered with situation,
    personality, style and role exactly as the request carried them, while
    the prompt given to the runner embeds [situation.lower()] and
    [personality.lower()]. *)
Theorem start_session_echo (E : env) (data : value) (st st' : state)
  (r : response) :
  start_session E data st = (Ok r, st') ->
  status r = 200 ->
  exists fields s p,
    data = VDict fields
    /\ (forall key, In key parameter_names ->
                    body_field key r = lookup key fields
                    /\ lookup key fields <> None)
    /\ lookup "situation" fields = Some (VStr s)
    /\ lookup "personality" fields = Some (VStr p)
    /\ launched st'
       = (launched st
          ++ [ollama_argv default_model
                (initial_prompt (str_lower E s) (str_lower E p)
                   (fmt E (field "style" fields)) (fmt E (field "role" fields)))])%list.
Proof.
  intros H H200.
  destruct (start_session_ok_inv E _ _ _ _ H H200)
    as (fields & s & p & reply & -> & Hall & Hs & Hp & Hcall & ->).
  exists fields, s, p.
  unfold all in Hall. cbn [forallb] in Hall.
  apply andb_prop in Hall as [H1 Hall]. apply andb_prop in Hall as [H2 Hall].
  apply andb_prop in Hall as [H3 Hall]. apply andb_prop in Hall as [H4 _].
  apply truthy_present in H1, H2, H3, H4.
  repeat split.
  - destruct H0 as [<- | [<- | [<- | [<- | []]]]]; symmetry; assumption.
  - destruct H0 as [<- | [<- | [<- | [<- | []]]]]; congruence.
  - now rewrite H1, Hs.
  - now rewrite H2, Hp.
  - pose proof (call_ollama_launches E
                  (initial_prompt (str_lower E s) (str_lower E p)
                     (fmt E (field "style" fields)) (fmt E (field "role" fields)))
                  default_model st) as [Hl _].
    rewrite Hcall in Hl. exact Hl.
Qed.

Lemma start_session_echo_witness :
  exists r st',
    start_session (Demo.env_with Demo.answering) (start_request Demo.params) init
    = (Ok r, st')
    /\ status r = 200
    /\ body_field "situation" r = Some (VStr "Generalized Anxiety")
    /\ launched st'
       = [ollama_argv default_model
            (initial_prompt "generalized anxiety" "avoidant" "formal" "therapist")].
Proof.
  assert (H : start_session (Demo.env_with Demo.answering)
                (start_request Demo.params) init
              = (Ok (jsonify (start_body (params_fields Demo.params)
                                "I feel a little better today.")),
                 with_launch init
                   (ollama_argv default_model
                      (initial_prompt "generalized anxiety" "avoidant"
                         "formal" "therapist"))))
    by reflexivity.
  destruct (start_session_echo _ _ _ _ _ H eq_refl)
    as (fields & s & p & Hd & Hk & _).
  inversion Hd; subst fields.
  eexists; eexists. split; [exact H|].
  split; [reflexivity|]. split; [|reflexivity].
  rewrite (proj1 (Hk "situation" (or_introl eq_refl))). reflexivity.
Defined.

(** ** Computations that leave the state alone *)

Lemma subscript_pure entry key st :
  subscript entry key st = (result_of (subscript entry key), st).
Proof.
  unfold result_of, subscript. destruct entry; try reflexivity.
  destruct (lookup key fields); reflexivity.
Qed.

Lemma lower_pure E v st : lower E v st = (result_of (lower E v), st).
Proof. destruct v; reflexivity. Qed.

Lemma entry_line_pure E entry st :
  entry_line E entry st = (result_of (entry_line E entry), st).
Proof.
  unfold result_of, entry_line, bind.
  rewrite (subscript_pure entry "speaker" st), (subscript_pure entry "speaker" init).
  destruct (result_of (subscript entry "speaker")); [|reflexivity].
  rewrite (subscript_pure entry "text" st), (subscript_pure entry "text" init).
  destruct (result_of (subscript entry "text")); reflexivity.
Qed.

Lemma entry_lines_pure E entries st :
  entry_lines E entries st = (result_of (entry_lines E entries), st).
Proof.
  unfold result_of. induction entries as [|entry rest IH]; [reflexivity|].
  cbn [entry_lines]. unfold bind.
  rewrite (entry_line_pure E entry st), (entry_line_pure E entry init).
  destruct (result_of (entry_line E entry)); [|reflexivity].
  rewrite IH. destruct (entry_lines E rest init) as [[lines | e] st0]; reflexivity.
Qed.

Lemma conversation_context_pure E history st :
  conversation_context E history st
  = (result_of (conversation_context E history), st).
Proof.
  unfold result_of, conversation_context. destruct history; try reflexivity.
  - destruct (s =? "")%string; reflexivity.
  - unfold bind. rewrite (entry_lines_pure E items st), (entry_lines_pure E items init).
    destruct (result_of (entry_lines E items)); reflexivity.
  - destruct fields; reflexivity.
Qed.

(** ** [/message] *)

Section Message.

Variable E : env.

(** [message_try] on a JSON object: the history of the request is bound to
    the local, and the user's entry is appended when it is a list. *)
Lemma message_try_dict fields st :
  message_try E (VDict fields) st
  = match request_history fields with
    | VList entries =>
        message_rest E fields
          (with_local st
             (Some (VList (entries ++ [you_entry (field "message" fields)]))))
    | history =>
        (Raise (AttributeError (type_name history) "append"),
         with_local st (Some history))
    end.
Proof.
  unfold message_try, message_rest, dict_get, request_history, field.
  cbn [bind ret assign_history append_history read_history local_history
       launched printed].
  destruct (lookup "conversation_history" fields) as [history|]; [|reflexivity].
  destruct history; reflexivity.
Qed.

Lemma read_history_bound st h :
  local_history st = Some h -> read_history st = (Ok h, st).
Proof. unfold read_history. now intros ->. Qed.

Lemma append_history_list entry st entries :
  local_history st = Some (VList entries) ->
  append_history entry st
  = (Ok tt, with_local st (Some (VList (entries ++ [entry])))).
Proof.
  intros H. unfold append_history, bind. rewrite (read_history_bound _ _ H).
  reflexivity.
Qed.

Lemma call_ollama_effect prompt model st o st' :
  call_ollama E prompt model st = (o, st') ->
  launched st' = (launched st ++ [ollama_argv model prompt])%list
  /\ local_history st' = local_history st.
Proof.
  intros H. pose proof (call_ollama_launches E prompt model st) as Hl.
  rewrite H in Hl. exact Hl.
Qed.

Lemma lower_ok_inv v st s st' :
  lower E v st = (Ok s, st') ->
  exists s0, v = VStr s0 /\ s = str_lower E s0 /\ st' = st.
Proof.
  destruct v; try discriminate. cbn. intros H; inversion H; eauto.
Qed.

Lemma lower_raise_inv v st e st' :
  lower E v st = (Raise e, st') -> st' = st.
Proof.
  rewrite lower_pure. intros H; now inversion H.
Qed.

(** A successful run of the rest of the [try] block. *)
Lemma message_rest_ok_inv fields st entries r st' :
  local_history st = Some (VList entries) ->
  message_rest E fields st = (Ok r, st') ->
  exists context s p reply evaluation,
    result_of (conversation_context E (VList entries)) = Ok context
    /\ field "situation" fields = VStr s
    /\ field "personality" fields = VStr p
    /\ r = jsonify (message_body E
                      (VList (entries ++ [patient_entry E reply])) reply evaluation)
    /\ launched st'
       = (launched st
          ++ [turn_argv E fields s p context; critique_argv E fields])%list
    /\ local_history st' = Some (VList (entries ++ [patient_entry E reply])).
Proof.
  intros Hloc H. unfold message_rest in H.
  rewrite (bind_ok _ _ _ _ _ (read_history_bound _ _ Hloc)) in H.
  apply bind_ok_inv in H as (context & st1 & Hctx & H).
  rewrite conversation_context_pure in Hctx. inversion Hctx as [[Hc Hst]].
  subst st1. clear Hctx.
  apply bind_ok_inv in H as (sl & st1 & Hsl & H).
  apply lower_ok_inv in Hsl as (s & Hs & -> & ->).
  apply bind_ok_inv in H as (pl & st1 & Hpl & H).
  apply lower_ok_inv in Hpl as (p & Hp & -> & ->).
  apply bind_ok_inv in H as (reply & st1 & Hcall1 & H).
  apply call_ollama_effect in Hcall1 as [Hl1 Hh1].
  rewrite Hloc in Hh1.
  rewrite (bind_ok _ _ _ _ _ (append_history_list _ _ _ Hh1)) in H.
  apply bind_ok_inv in H as (evaluation & st2 & Hcall2 & H).
  apply call_ollama_effect in Hcall2 as [Hl2 Hh2].
  cbn [with_local launched local_history] in Hl2, Hh2.
  rewrite (bind_ok _ _ _ _ _ (read_history_bound _ _ Hh2)) in H.
  inversion H; subst.
  exists context, s, p, reply, evaluation.
  rewrite Hl2, Hl1, <- app_assoc. auto 8.
Qed.

(** An exception in the rest of the [try] block leaves the local bound to
    the list, grown by the patient's entry if it was appended. *)
Lemma message_rest_raise_inv fields st entries e st' :
  local_history st = Some (VList entries) ->
  message_rest E fields st = (Raise e, st') ->
  local_history st' = Some (VList entries)
  \/ exists reply,
       local_history st' = Some (VList (entries ++ [patient_entry E reply])).
Proof.
  intros Hloc H. unfold message_rest in H.
  rewrite (bind_ok _ _ _ _ _ (read_history_bound _ _ Hloc)) in H.
  apply bind_raise_inv in H as [H | (context & st1 & Hctx & H)].
  { rewrite conversation_context_pure in H. inversion H; subst. now left. }
  rewrite conversation_context_pure in Hctx. inversion Hctx as [[Hc Hst]].
  subst st1. clear Hctx.
  apply bind_raise_inv in H as [H | (sl & st1 & Hsl & H)].
  { apply lower_raise_inv in H as ->. now left. }
  apply lower_ok_inv in Hsl as (s & Hs & -> & ->).
  apply bind_raise_inv in H as [H | (pl & st1 & Hpl & H)].
  { apply lower_raise_inv in H as ->. now left. }
  apply lower_ok_inv in Hpl as (p & Hp & -> & ->).
  apply bind_raise_inv in H as [H | (reply & st1 & Hcall1 & H)].
  { apply call_ollama_effect in H as [_ Hh]. left. congruence. }
  apply call_ollama_effect in Hcall1 as [Hl1 Hh1].
  rewrite Hloc in Hh1.
  rewrite (bind_ok _ _ _ _ _ (append_history_list _ _ _ Hh1)) in H.
  right. exists reply.
  apply bind_raise_inv in H as [H | (evaluation & st2 & Hcall2 & H)].
  { apply call_ollama_effect in H as [_ Hh]. exact Hh. }
  apply call_ollama_effect in Hcall2 as [Hl2 Hh2].
  cbn [with_local launched local_history] in Hl2, Hh2.
  rewrite (bind_ok _ _ _ _ _ (read_history_bound _ _ Hh2)) in H.
  discriminate H.
Qed.

End Message.

Section Handler.

Variable E : env.

(** The state a call of [message] starts in and the state it leaves. *)
Lemma message_unfold data st :
  message E data st
  = let (o, st1) := message_try E data (with_local st None) in
    match o with
    | Ok r => (Ok r, with_local st1 (local_history st))
    | Raise e =>
        let (o', st2) := message_except E e st1 in
        (o', with_local st2 (local_history st))
    end.
Proof.
  unfold message, in_frame, try_except, with_local.
  destruct (message_try E data _) as [[r | e] st1]; [reflexivity|].
  destruct (message_except E e st1); reflexivity.
Qed.

(** Without a JSON object there is no [get]: the first statement of the
    [try] block raises, with the local still unbound. *)
Lemma message_try_not_dict data st :
  (forall fields, data <> VDict fields) ->
  message_try E data st = (Raise (AttributeError (type_name data) "get"), st).
Proof.
  intros H. destruct data; try reflexivity. now destruct (H fields).
Qed.

Lemma message_except_bound e st history :
  local_history st = Some history ->
  message_except E e st = (Ok (mkResponse 500 (VDict (error_body E e history))), st).
Proof.
  intros H. unfold message_except.
  rewrite (bind_ok _ _ _ _ _ (read_history_bound _ _ H)). reflexivity.
Qed.

Lemma message_except_unbound e st :
  local_history st = None ->
  message_except E e st = (Raise (UnboundLocalError "conversation_history"), st).
Proof.
  intros H. unfold message_except, bind, read_history. now rewrite H.
Qed.

(** The [try] block on a JSON object ends with the local bound. *)
Lemma message_try_dict_raise fields st e st' :
  message_try E (VDict fields) st = (Raise e, st') ->
  exists history, local_history st' = Some history
    /\ (history = request_history fields
        \/ exists entries,
             request_history fields = VList entries
             /\ (history = VList (entries ++ [you_entry (field "message" fields)])
                 \/ exists reply,
                      history
                      = VList (entries ++ [you_entry (field "message" fields);
                                           patient_entry E reply]))).
Proof.
  rewrite message_try_dict. intros H.
  destruct (request_history fields) as [| | | | |entries|] eqn:Hh;
    try (inversion H; subst; eexists; split; [reflexivity | now left]).
  pose proof (message_rest_raise_inv E fields
                (with_local st
                   (Some (VList (entries ++ [you_entry (field "message" fields)]))))
                (entries ++ [you_entry (field "message" fields)]) e st'
                eq_refl H) as [Hl | [reply Hl]];
    eexists; (split; [exact Hl|]); right; exists entries; split; auto.
  right. exists reply. now rewrite <- app_assoc.
Qed.

(** A response of [message] with status 200: the request was a JSON object
    with a list for history; the answer carries that list followed by the
    user's entry and the patient's entry. *)
Lemma message_ok_inv data st r st' :
  message E data st = (Ok r, st') ->
  status r = 200 ->
  exists fields entries context s p reply evaluation,
    data = VDict fields
    /\ request_history fields = VList entries
    /\ result_of (conversation_context E
                    (VList (entries ++ [you_entry (field "message" fields)])))
       = Ok context
    /\ field "situation" fields = VStr s
    /\ field "personality" fields = VStr p
    /\ r = jsonify (message_body E
                      (VList (entries ++ [you_entry (field "message" fields);
                                          patient_entry E reply]))
                      reply evaluation)
    /\ launched st'
       = (launched st
          ++ [turn_argv E fields s p context; critique_argv E fields])%list
    /\ local_history st' = local_history st.
Proof.
  rewrite message_unfold. intros H H200.
  destruct (message_try E data (with_local st None)) as [[r0 | e] st1] eqn:Htry.
  - inversion H; subst r0 st'; clear H.
    destruct data as [| | | | | |fields]; try discriminate Htry.
    rewrite message_try_dict in Htry.
    destruct (request_history fields) as [| | | | |entries|] eqn:Hh;
      try discriminate Htry.
    destruct (message_rest_ok_inv E fields
                (with_local (with_local st None)
                   (Some (VList (entries ++ [you_entry (field "message" fields)]))))
                (entries ++ [you_entry (field "message" fields)]) r st1
                eq_refl Htry)
      as (context & s & p & reply & evaluation & Hc & Hs & Hp & Hr & Hl & Hloc).
    exists fields, entries, context, s, p, reply, evaluation.
    rewrite <- app_assoc in Hr. cbn [app] in Hr.
    repeat split; auto.
  - destruct (local_history st1) as [history|] eqn:Hloc.
    + rewrite (message_except_bound _ _ _ Hloc) in H.
      inversion H; subst. discriminate H200.
    + rewrite (message_except_unbound _ _ Hloc) in H. discriminate H.
Qed.

(** On a JSON object, an exception of the [try] block is answered with
    status 500, the error string, the history as it stood and a RED
    evaluation. *)
Lemma message_error_response fields st e st1 :
  message_try E (VDict fields) (with_local st None) = (Raise e, st1) ->
  exists history,
    local_history st1 = Some history
    /\ message E (VDict fields) st
       = (Ok (mkResponse 500 (VDict (error_body E e history))),
          with_local st1 (local_history st)).
Proof.
  intros H. destruct (message_try_dict_raise _ _ _ _ H) as (history & Hloc & _).
  exists history. split; [exact Hloc|].
  rewrite message_unfold, H, (message_except_bound _ _ _ Hloc). reflexivity.
Qed.

(** Without a JSON object, the [except] clause itself raises. *)
Lemma message_not_dict data st :
  (forall fields, data <> VDict fields) ->
  message E data st = (Raise (UnboundLocalError "conversation_history"), st).
Proof.
  intros H. rewrite message_unfold, (message_try_not_dict _ _ H).
  rewrite message_except_unbound by reflexivity.
  destruct st; reflexivity.
Qed.

End Handler.

(** ** The conversation context *)

Section Context.

Variable E : env.

Lemma entry_line_ok entry :
  well_formed_entry entry = true ->
  result_of (entry_line E entry) = Ok (line_of E entry).
Proof.
  destruct entry as [| | | | | |fields]; try discriminate.
  unfold well_formed_entry, result_of, entry_line, line_of, subscript, bind, field.
  destruct (lookup "speaker" fields); [|discriminate].
  destruct (lookup "text" fields); [reflexivity | discriminate].
Qed.

Lemma entry_lines_ok entries :
  forallb well_formed_entry entries = true ->
  result_of (entry_lines E entries) = Ok (map (line_of E) entries).
Proof.
  induction entries as [|entry rest IH]; [reflexivity|].
  cbn [forallb]. intros H. apply andb_prop in H as [He Hr].
  unfold result_of. cbn [entry_lines map]. unfold bind.
  rewrite entry_line_pure, (entry_line_ok _ He).
  rewrite entry_lines_pure, (IH Hr). reflexivity.
Qed.

(** The context of a list of well-formed entries: their lines, in order,
    joined by newlines. *)
Lemma conversation_context_ok entries :
  forallb well_formed_entry entries = true ->
  result_of (conversation_context E (VList entries))
  = Ok (join nl (map (line_of E) entries)).
Proof.
  intros H. unfold result_of, conversation_context, bind.
  rewrite entry_lines_pure, (entry_lines_ok _ H). reflexivity.
Qed.

(** Conversely the context exists only for well-formed entries. *)
Lemma entry_lines_ok_inv entries lines :
  result_of (entry_lines E entries) = Ok lines ->
  forallb well_formed_entry entries = true.
Proof.
  revert lines. induction entries as [|entry rest IH]; [reflexivity|].
  intros lines. unfold result_of. cbn [entry_lines forallb]. unfold bind.
  rewrite entry_line_pure.
  destruct (result_of (entry_line E entry)) as [line | e] eqn:Hl; [|discriminate].
  rewrite entry_lines_pure.
  destruct (result_of (entry_lines E rest)) as [lines0 | e] eqn:Hr; [|discriminate].
  intros _. rewrite (IH _ eq_refl), andb_true_r.
  destruct entry as [| | | | | |fields]; try discriminate Hl.
  unfold result_of, entry_line, subscript, bind in Hl. unfold well_formed_entry.
  destruct (lookup "speaker" fields); [|discriminate Hl].
  destruct (lookup "text" fields); [reflexivity | discriminate Hl].
Qed.

Lemma conversation_context_ok_inv entries context :
  result_of (conversation_context E (VList entries)) = Ok context ->
  forallb well_formed_entry entries = true
  /\ context = join nl (map (line_of E) entries).
Proof.
  unfold result_of, conversation_context, bind. rewrite entry_lines_pure.
  destruct (result_of (entry_lines E entries)) as [lines | e] eqn:Hl; [|discriminate].
  intros H. pose proof (entry_lines_ok_inv _ _ Hl) as Hwf.
  rewrite (entry_lines_ok _ Hwf) in Hl. inversion Hl; subst.
  inversion H; subst. auto.
Qed.

Lemma join_concat sep parts : join sep parts = String.concat sep parts.
Proof.
  induction parts as [|p [|q rest] IH]; [reflexivity | reflexivity|].
  change (join sep (p :: q :: rest)) with (p ++ sep ++ join sep (q :: rest)).
  now rewrite IH.
Qed.

Lemma entry_value_well_formed (e : entry) : well_formed_entry (entry_value e) = true.
Proof. reflexivity. Qed.

Lemma entry_value_line (e : entry) :
  line_of E (entry_value e) = speaker e ++ ": " ++ text e.
Proof. reflexivity. Qed.

Lemma history_well_formed (history : list entry) :
  forallb well_formed_entry (map entry_value history) = true.
Proof.
  induction history as [|e rest IH]; [reflexivity|].
  cbn [map forallb]. now rewrite entry_value_well_formed, IH.
Qed.

Lemma history_lines (history : list entry) :
  join nl (map (line_of E) (map entry_value history)) = serialize history.
Proof.
  unfold serialize. rewrite join_concat, map_map. f_equal.
Qed.

End Context.

(** ** [/message], forwards *)

Section Turn.

Variable E : env.

(** With a context and two strings to lower-case, the rest of the [try]
    block is its two launches. *)
Lemma message_rest_steps fields st entries context s p :
  local_history st = Some (VList entries) ->
  result_of (conversation_context E (VList entries)) = Ok context ->
  field "situation" fields = VStr s ->
  field "personality" fields = VStr p ->
  message_rest E fields st
  = match call_ollama E (turn_prompt (fmt E (field "role" fields)) (str_lower E s)
                           (str_lower E p) (fmt E (field "style" fields)) context)
            default_model st with
    | (Raise e, st1) => (Raise e, st1)
    | (Ok reply, st1) =>
        match call_ollama E
                (critique_prompt (fmt E (field "role" fields))
                   (fmt E (field "message" fields)))
                default_model
                (with_local st1
                   (Some (VList (entries ++ [patient_entry E reply])))) with
        | (Raise e, st2) => (Raise e, st2)
        | (Ok evaluation, st2) =>
            (Ok (jsonify (message_body E
                            (VList (entries ++ [patient_entry E reply]))
                            reply evaluation)), st2)
        end
    end.
Proof.
  intros Hloc Hc Hs Hp. unfold message_rest.
  rewrite (bind_ok _ _ _ _ _ (read_history_bound _ _ Hloc)).
  assert (Hctx : conversation_context E (VList entries) st = (Ok context, st))
    by (now rewrite conversation_context_pure, Hc).
  rewrite (bind_ok _ _ _ _ _ Hctx), Hs, Hp.
  rewrite (bind_ok (lower E (VStr s)) _ st (str_lower E s) st eq_refl).
  rewrite (bind_ok (lower E (VStr p)) _ st (str_lower E p) st eq_refl).
  unfold bind at 1.
  destruct (call_ollama E _ default_model st) as [[reply | e] st1] eqn:Hcall1;
    [|reflexivity].
  apply call_ollama_effect in Hcall1 as [_ Hh1]. rewrite Hloc in Hh1.
  rewrite (bind_ok _ _ _ _ _ (append_history_list _ _ _ Hh1)).
  unfold bind at 1.
  destruct (call_ollama E _ default_model (with_local st1 _))
    as [[evaluation | e] st2] eqn:Hcall2; [|reflexivity].
  apply call_ollama_effect in Hcall2 as [_ Hh2].
  cbn [with_local local_history] in Hh2.
  now rewrite (bind_ok _ _ _ _ _ (read_history_bound _ _ Hh2)).
Qed.

Lemma you_entry_well_formed v : well_formed_entry (you_entry v) = true.
Proof. reflexivity. Qed.

Lemma patient_entry_well_formed reply : well_formed_entry (patient_entry E reply) = true.
Proof. reflexivity. Qed.

Lemma forallb_snoc {A} (f : A -> bool) l x :
  forallb f (l ++ [x]) = forallb f l && f x.
Proof. rewrite forallb_app. cbn. now rewrite andb_true_r. Qed.

(** The first launch of [message] is the turn prompt over the history of
    the request followed by the user's entry. *)
Lemma message_first_launch fields st entries s p :
  request_history fields = VList entries ->
  forallb well_formed_entry entries = true ->
  field "situation" fields = VStr s ->
  field "personality" fields = VStr p ->
  exists rest,
    launched (snd (message E (VDict fields) st))
    = (launched st
       ++ turn_argv E fields s p
            (join nl (map (line_of E)
                        (entries ++ [you_entry (field "message" fields)])))
          :: rest)%list.
Proof.
  intros Hh Hwf Hs Hp.
  assert (Hwf' : forallb well_formed_entry
                   (entries ++ [you_entry (field "message" fields)]) = true)
    by (now rewrite forallb_snoc, Hwf).
  rewrite message_unfold, message_try_dict, Hh.
  erewrite message_rest_steps;
    [ | reflexivity | exact (conversation_context_ok E _ Hwf') | exact Hs | exact Hp ].
  fold (turn_argv E fields s p
          (join nl (map (line_of E) (entries ++ [you_entry (field "message" fields)])))).
  destruct (call_ollama E _ default_model _) as [[reply | e] st1] eqn:Hcall1.
  - apply call_ollama_effect in Hcall1 as [Hl1 Hh1].
    destruct (call_ollama E _ default_model (with_local st1 _))
      as [[evaluation | e] st2] eqn:Hcall2;
      apply call_ollama_effect in Hcall2 as [Hl2 Hh2];
      cbn [with_local launched local_history] in Hl2, Hh2.
    + exists [critique_argv E fields]. cbn [snd with_local launched].
      now rewrite Hl2, Hl1, <- app_assoc.
    + rewrite (message_except_bound E e st2 _ Hh2).
      exists [critique_argv E fields]. cbn [snd with_local launched].
      now rewrite Hl2, Hl1, <- app_assoc.
  - apply call_ollama_effect in Hcall1 as [Hl1 Hh1].
    cbn [with_local local_history] in Hh1.
    rewrite (message_except_bound E e st1 _ Hh1).
    exists []. cbn [snd with_local launched]. exact Hl1.
Qed.

(** With a runner that never raises anything but an exit status or a
    timeout, a well-formed turn succeeds. *)
Lemma message_ok fields st entries s p :
  runner_handled E ->
  request_history fields = VList entries ->
  forallb well_formed_entry entries = true ->
  field "situation" fields = VStr s ->
  field "personality" fields = VStr p ->
  exists reply evaluation st',
    message E (VDict fields) st
    = (Ok (jsonify (message_body E
                      (VList (entries ++ [you_entry (field "message" fields);
                                          patient_entry E reply]))
                      reply evaluation)), st').
Proof.
  intros Hrun Hh Hwf Hs Hp.
  assert (Hwf' : forallb well_formed_entry
                   (entries ++ [you_entry (field "message" fields)]) = true)
    by (now rewrite forallb_snoc, Hwf).
  rewrite message_unfold, message_try_dict, Hh.
  erewrite message_rest_steps;
    [ | reflexivity | exact (conversation_context_ok E _ Hwf') | exact Hs | exact Hp ].
  match goal with
  | |- context [call_ollama E ?prompt default_model ?st0] =>
      destruct (call_ollama_handled E prompt default_model st0 (Hrun _ _))
        as (st1 & -> & _ & _)
  end.
  match goal with
  | |- context [call_ollama E ?prompt default_model ?st0] =>
      destruct (call_ollama_handled E prompt default_model st0 (Hrun _ _))
        as (st2 & -> & _ & _)
  end.
  rewrite <- app_assoc. cbn [app]. eauto.
Qed.

End Turn.

(** ** Sessions *)

Section Session.

Variable E : env.

Lemma message_request_history p history m :
  request_history (message_fields p history m) = VList history.
Proof. reflexivity. Qed.

(** What a turn of the client returns, when it returns. *)
Lemma turn_returns p history m st r st' entries :
  message E (message_request p history m) st = (Ok r, st') ->
  returned_history r = Some entries ->
  exists reply,
    entries = (history ++ [you_entry (VStr m); patient_entry E reply])%list.
Proof.
  intros H Hr.
  assert (H200 : status r = 200).
  { unfold returned_history in Hr. destruct (status r =? 200) eqn:Hs;
      [now apply Z.eqb_eq | discriminate]. }
  destruct (message_ok_inv E _ _ _ _ H H200)
    as (fields & entries0 & context & s & q & reply & evaluation
        & Hd & Hh & _ & _ & _ & -> & _ & _).
  unfold message_request in Hd. inversion Hd; subst fields; clear Hd.
  cbn in Hh. inversion Hh; subst entries0.
  exists reply. cbn in Hr. inversion Hr. reflexivity.
Qed.

(** The turns only append: the history they started from is a prefix of the
    result, which has two more entries per message. *)
Lemma turns_append p user_messages : forall history st entries st',
  turns E p history user_messages st = (Some entries, st') ->
  (exists suffix, entries = history ++ suffix)%list
  /\ List.length entries
     = (List.length history + 2 * List.length user_messages)%nat.
Proof.
  induction user_messages as [|m rest IH]; intros history st entries st' H.
  - cbn in H. inversion H; subst. split; [exists []; now rewrite app_nil_r|].
    cbn. lia.
  - cbn [turns] in H.
    destruct (message E (message_request p history m) st) as [[r | e] st1] eqn:Hm;
      [|discriminate H].
    destruct (returned_history r) as [history'|] eqn:Hr; [|discriminate H].
    destruct (turn_returns _ _ _ _ _ _ _ Hm Hr) as (reply & ->).
    destruct (IH _ _ _ _ H) as [[suffix ->] Hlen].
    split.
    + eexists. rewrite <- app_assoc. reflexivity.
    + rewrite Hlen, length_app. cbn [List.length]. lia.
Qed.

Lemma seed_entry_well_formed reply : well_formed_entry (seed_entry reply) = true.
Proof. reflexivity. Qed.

(** With a runner that never raises anything but an exit status or a
    timeout, every turn succeeds. *)
Lemma turns_total p user_messages : forall history st,
  runner_handled E ->
  forallb well_formed_entry history = true ->
  exists entries st',
    turns E p history user_messages st = (Some entries, st').
Proof.
  induction user_messages as [|m rest IH]; intros history st Hrun Hwf.
  - cbn. eauto.
  - cbn [turns].
    destruct (message_ok E (message_fields p history m) st history
                (situation p) (personality p)
                Hrun eq_refl Hwf eq_refl eq_refl)
      as (reply & evaluation & st1 & Hm).
    unfold message_request. rewrite Hm.
    cbn [returned_history jsonify status body_field body message_body lookup
         String.eqb Ascii.eqb Bool.eqb Z.eqb Pos.eqb].
    apply IH; [exact Hrun|].
    rewrite forallb_app, Hwf. reflexivity.
Qed.

(** What [/start] returns to the client, when it returns. *)
Lemma start_returns p st r st' entries :
  start_session E (start_request p) st = (Ok r, st') ->
  returned_history r = Some entries ->
  exists reply, entries = [seed_entry reply].
Proof.
  intros H Hr.
  assert (H200 : status r = 200).
  { unfold returned_history in Hr. destruct (status r =? 200) eqn:Hs;
      [now apply Z.eqb_eq | discriminate]. }
  destruct (start_session_ok_inv E _ _ _ _ H H200)
    as (fields & s & q & reply & _ & _ & _ & _ & _ & ->).
  exists reply. cbn in Hr. now inversion Hr.
Qed.

Lemma session_length p user_messages st entries st' :
  session E p user_messages st = (Some entries, st') ->
  List.length entries = (1 + 2 * List.length user_messages)%nat.
Proof.
  unfold session.
  destruct (start_session E (start_request p) st) as [[r | e] st1] eqn:Hs;
    [|discriminate].
  destruct (returned_history r) as [history|] eqn:Hr; [|discriminate].
  destruct (start_returns _ _ _ _ _ Hs Hr) as (reply & ->).
  intros H. apply turns_append in H as [_ H]. exact H.
Qed.

Lemma session_total p user_messages st :
  runner_handled E ->
  all_nonempty p = true ->
  exists entries st', session E p user_messages st = (Some entries, st').
Proof.
  intros Hrun Hp. unfold session, start_request.
  assert (Hc : carries (params_fields p) p) by (repeat split).
  rewrite (start_session_proceeds E _ _ _ Hc Hp).
  destruct (call_ollama_handled E (start_prompt E p) default_model st (Hrun _ _))
    as (st1 & Hcall & _ & _).
  rewrite (bind_ok _ _ _ _ _ Hcall).
  cbn [ret returned_history jsonify status body_field body start_body lookup
       String.eqb Ascii.eqb Bool.eqb Z.eqb Pos.eqb].
  apply turns_total; [exact Hrun | reflexivity].
Qed.

End Session.

(** ** C4, C9: the history *)

(** C4.  History accumulation is append-only and order-preserving.  A
    [/message] call answered with status 200 returns the history of the
    request, unchanged, followed by exactly two entries: the user's "You"
    entry, then the patient's "Patient" entry.  So a session of [/start]
    and N [/message] calls that all succeed ends with 1 + 2N entries; and
    such a session does succeed whenever the four parameters are non-empty
    and every launch of the runner ends in an exit status or a timeout. *)
Theorem history_append_only (E : env) :
  (forall data st r st',
      message E data st = (Ok r, st') ->
      status r = 200 ->
      exists fields history reply,
        data = VDict fields
        /\ request_history fields = VList history
        /\ body_field "conversation_history" r
           = Some (VList (history
                          ++ [VDict [("speaker", VStr "You");
                                     ("text", field "message" fields)];
                              patient_entry E reply])))
  /\ (forall p user_messages st entries st',
         session E p user_messages st = (Some entries, st') ->
         List.length entries = (1 + 2 * List.length user_messages)%nat)
  /\ (forall p user_messages st,
         runner_handled E ->
         all_nonempty p = true ->
         exists entries st', session E p user_messages st = (Some entries, st')).
Proof.
  split; [|split].
  - intros data st r st' H H200.
    destruct (message_ok_inv E _ _ _ _ H H200)
      as (fields & history & context & s & p & reply & evaluation
          & -> & Hh & _ & _ & _ & -> & _ & _).
    exists fields, history, reply. auto.
  - apply session_length.
  - apply session_total.
Qed.

Lemma history_append_only_witness :
  (exists r st' reply,
      message (Demo.env_with Demo.answering)
        (message_request Demo.params [seed_entry "I feel stuck."] "Tell me more.")
        init
      = (Ok r, st')
      /\ status r = 200
      /\ body_field "conversation_history" r
         = Some (VList [seed_entry "I feel stuck.";
                        VDict [("speaker", VStr "You"); ("text", VStr "Tell me more.")];
                        patient_entry (Demo.env_with Demo.answering) reply]))
  /\ exists entries st',
       session (Demo.env_with Demo.answering) Demo.params
         ["How are you feeling?"; "Tell me more."] init
       = (Some entries, st')
       /\ List.length entries = 5%nat.
Proof.
  destruct (history_append_only (Demo.env_with Demo.answering))
    as (Hturn & Hlen & Htotal).
  split.
  - destruct (message_ok (Demo.env_with Demo.answering)
                (message_fields Demo.params [seed_entry "I feel stuck."]
                   "Tell me more.")
                init [seed_entry "I feel stuck."] "Generalized Anxiety" "Avoidant"
                answering_handled eq_refl eq_refl eq_refl eq_refl)
      as (reply0 & evaluation & st' & Hm).
    destruct (Hturn _ _ _ _ Hm eq_refl) as (fields & history & reply & Hd & Hh & Hb).
    inversion Hd; subst fields. inversion Hh; subst history.
    eexists _, st', reply. split; [exact Hm|]. split; [reflexivity | exact Hb].
  - destruct (Htotal Demo.params ["How are you feeling?"; "Tell me more."] init
                answering_handled eq_refl) as (entries & st' & Hs).
    exists entries, st'. split; [exact Hs|]. exact (Hlen _ _ _ _ _ Hs).
Defined.

(** C9.  Of the entries the handlers create, only the Patient entry that
    [/message] appends carries mood and mood_score; the "You" entry of
    [/message] and the Patient entry of [/start] carry speaker and text and
    nothing else. *)
Theorem mood_only_on_turn_reply (E : env) :
  (forall data st r st',
      message E data st = (Ok r, st') ->
      status r = 200 ->
      exists fields history you patient,
        data = VDict fields
        /\ request_history fields = VList history
        /\ body_field "conversation_history" r
           = Some (VList (history ++ [you; patient]))
        /\ lookup "speaker" (match you with VDict f => f | _ => [] end)
           = Some (VStr "You")
        /\ entry_keys you = ["speaker"; "text"]
        /\ lookup "speaker" (match patient with VDict f => f | _ => [] end)
           = Some (VStr "Patient")
        /\ entry_keys patient = ["speaker"; "text"; "mood"; "mood_score"])
  /\ (forall data st r st',
         start_session E data st = (Ok r, st') ->
         status r = 200 ->
         exists patient,
           body_field "conversation_history" r = Some (VList [patient])
           /\ lookup "speaker" (match patient with VDict f => f | _ => [] end)
              = Some (VStr "Patient")
           /\ entry_keys patient = ["speaker"; "text"]).
Proof.
  split.
  - intros data st r st' H H200.
    destruct (message_ok_inv E _ _ _ _ H H200)
      as (fields & history & context & s & p & reply & evaluation
          & -> & Hh & _ & _ & _ & -> & _ & _).
    exists fields, history, (you_entry (field "message" fields)),
      (patient_entry E reply).
    repeat split; auto.
  - intros data st r st' H H200.
    destruct (start_session_ok_inv E _ _ _ _ H H200)
      as (fields & s & p & reply & _ & _ & _ & _ & _ & ->).
    exists (seed_entry reply). repeat split.
Qed.

Lemma mood_only_on_turn_reply_witness :
  (exists r st' you patient,
      message (Demo.env_with Demo.answering)
        (message_request Demo.params [seed_entry "I feel stuck."] "Tell me more.")
        init
      = (Ok r, st')
      /\ body_field "conversation_history" r
         = Some (VList [seed_entry "I feel stuck."; you; patient])
      /\ entry_keys you = ["speaker"; "text"]
      /\ entry_keys patient = ["speaker"; "text"; "mood"; "mood_score"])
  /\ exists r st' patient,
       start_session (Demo.env_with Demo.answering) (start_request Demo.params) init
       = (Ok r, st')
       /\ body_field "conversation_history" r = Some (VList [patient])
       /\ entry_keys patient = ["speaker"; "text"].
Proof.
  destruct (mood_only_on_turn_reply (Demo.env_with Demo.answering))
    as [Hturn Hstart].
  split.
  - destruct (message_ok (Demo.env_with Demo.answering)
                (message_fields Demo.params [seed_entry "I feel stuck."]
                   "Tell me more.")
                init [seed_entry "I feel stuck."] "Generalized Anxiety" "Avoidant"
                answering_handled eq_refl eq_refl eq_refl eq_refl)
      as (reply0 & evaluation & st' & Hm).
    destruct (Hturn _ _ _ _ Hm eq_refl)
      as (fields & history & you & patient & Hd & Hh & Hb & _ & Hy & _ & Hp).
    inversion Hd; subst fields. inversion Hh; subst history.
    eexists _, st', you, patient. split; [exact Hm|]. auto.
  - destruct (Hstart (start_request Demo.params) init
                (jsonify (start_body (params_fields Demo.params)
                            "I feel a little better today."))
                (with_launch init
                   (ollama_argv default_model
                      (start_prompt (Demo.env_with Demo.answering) Demo.params)))
                eq_refl eq_refl)
      as (patient & Hb & _ & Hk).
    exists (jsonify (start_body (params_fields Demo.params)
                       "I feel a little better today.")),
      (with_launch init
         (ollama_argv default_model
            (start_prompt (Demo.env_with Demo.answering) Demo.params))),
      patient.
    split; [reflexivity|]. split; [exact Hb | exact Hk].
Defined.

(** ** C5: the [except] clause of [/message] *)

(** C5 fails on a request whose JSON body is [null]: [data.get] raises
    before [conversation_history] is bound, the [except] clause reads the
    unbound local, and [UnboundLocalError] leaves the handler instead of the
    status 500 answer with error, history and RED evaluation. *)
Theorem message_null_body (E : env) (st : state) :
  message E VNone st = (Raise (UnboundLocalError "conversation_history"), st).
Proof.
  apply message_not_dict. intros fields H. discriminate H.
Qed.

(** ** [/evaluate] *)

Section Evaluate.

Variable E : env.

Lemma evaluate_dict fields st :
  evaluate E (VDict fields) st
  = if negb (truthy (request_history fields))
    then (Ok (jsonify_status [("error", VStr "No conversation history provided")]
                400), st)
    else
      (conversation_text <- conversation_context E (request_history fields) ;;
       evaluation <- call_ollama E (session_prompt conversation_text)
                                 default_model ;;
       ret (jsonify [("evaluation", VStr evaluation)])) st.
Proof.
  unfold evaluate, dict_get, request_history. cbn [bind ret].
  destruct (negb _); reflexivity.
Qed.

Lemma evaluate_empty fields st :
  truthy (request_history fields) = false ->
  evaluate E (VDict fields) st
  = (Ok (jsonify_status [("error", VStr "No conversation history provided")] 400),
     st).
Proof.
  intros H. now rewrite evaluate_dict, H.
Qed.

Lemma evaluate_proceeds fields entries st :
  request_history fields = VList entries ->
  entries <> [] ->
  forallb well_formed_entry entries = true ->
  evaluate E (VDict fields) st
  = (evaluation <- call_ollama E (evaluate_prompt E entries) default_model ;;
     ret (jsonify [("evaluation", VStr evaluation)])) st.
Proof.
  intros Hh Hne Hwf. rewrite evaluate_dict, Hh.
  destruct entries as [|entry rest]; [now destruct Hne|].
  cbn [truthy negb].
  assert (Hctx : conversation_context E (VList (entry :: rest)) st
                 = (Ok (join nl (map (line_of E) (entry :: rest))), st))
    by (now rewrite conversation_context_pure, (conversation_context_ok E _ Hwf)).
  now rewrite (bind_ok _ _ _ _ _ Hctx).
Qed.

End Evaluate.

(** ** C8: the context string *)

(** C8.  For every conversation history, the context computed by line 91
    and line 164 is the history's "{speaker}: {text}" lines joined by
    newlines in their order.  The turn prompt given to the runner by
    [/message] ends with that string for the history of the request followed
    by the user's entry; the prompt given by [/evaluate] embeds it for the
    history of the request. *)
Theorem context_serialization (E : env) (history : list entry) :
  (forall st,
      conversation_context E (VList (map entry_value history)) st
      = (Ok (serialize history), st))
  /\ (forall p user_message st,
         exists rest,
           launched (snd (message E
                            (message_request p (map entry_value history) user_message)
                            st))
           = (launched st
              ++ ollama_argv default_model
                   (turn_prompt (role p) (str_lower E (situation p))
                      (str_lower E (personality p)) (style p)
                      (serialize (history ++ [mkEntry "You" user_message None])))
                 :: rest)%list)
  /\ (forall st,
         history <> [] ->
         launched (snd (evaluate E
                          (VDict [("conversation_history",
                                   VList (map entry_value history))]) st))
         = (launched st
            ++ [ollama_argv default_model
                  (session_prompt (serialize history))])%list).
Proof.
  split; [|split].
  - intros st.
    rewrite conversation_context_pure,
      (conversation_context_ok E _ (history_well_formed history)), history_lines.
    reflexivity.
  - intros p m st.
    destruct (message_first_launch E (message_fields p (map entry_value history) m)
                st (map entry_value history) (situation p) (personality p)
                eq_refl (history_well_formed history) eq_refl eq_refl)
      as (rest & Hl).
    exists rest. unfold message_request. rewrite Hl. unfold turn_argv.
    change (field "message" (message_fields p (map entry_value history) m))
      with (VStr m).
    change (you_entry (VStr m)) with (entry_value (mkEntry "You" m None)).
    change [entry_value (mkEntry "You" m None)]
      with (map entry_value [mkEntry "You" m None]).
    rewrite <- map_app, history_lines. reflexivity.
  - intros st Hne.
    assert (Hne' : map entry_value history <> [])
      by (destruct history; [now destruct Hne | discriminate]).
    rewrite (evaluate_proceeds E
               [("conversation_history", VList (map entry_value history))]
               (map entry_value history) st eq_refl Hne'
               (history_well_formed history)).
    unfold evaluate_prompt. rewrite history_lines. unfold bind.
    destruct (call_ollama E _ default_model st) as [[reply | e] st'] eqn:Hcall;
      apply call_ollama_effect in Hcall as [Hl _]; exact Hl.
Qed.

Lemma context_serialization_witness :
  [mkEntry "Patient" "I feel stuck." None] <> []
  /\ launched (snd (evaluate (Demo.env_with Demo.answering)
                      (VDict [("conversation_history",
                               VList (map entry_value
                                        [mkEntry "Patient" "I feel stuck." None]))])
                      init))
     = [ollama_argv default_model (session_prompt "Patient: I feel stuck.")].
Proof.
  split; [discriminate|].
  destruct (context_serialization (Demo.env_with Demo.answering)
              [mkEntry "Patient" "I feel stuck." None]) as (_ & _ & H).
  rewrite (H init); [reflexivity | discriminate].
Defined.

(** ** What the [except] clause does cover *)

(** A [/message] request whose body is a JSON object is always answered:
    with status 200, or with status 500 from the [except] clause. *)
Lemma message_dict_answers (E : env) (fields : list (string * value)) (st : state) :
  exists r st',
    message E (VDict fields) st = (Ok r, st')
    /\ (status r = 200 \/ status r = 500).
Proof.
  destruct (message_try E (VDict fields) (with_local st None))
    as [[r | e] st1] eqn:Htry.
  - exists r, (with_local st1 (local_history st)).
    rewrite message_unfold, Htry. split; [reflexivity|].
    rewrite message_try_dict in Htry.
    destruct (request_history fields) as [| | | | |entries|]; try discriminate Htry.
    eapply message_rest_ok_inv in Htry; [|reflexivity].
    destruct Htry as (context & s & p & reply & evaluation & _ & _ & _ & -> & _).
    now left.
  - destruct (message_error_response E _ _ _ _ Htry) as (history & _ & ->).
    eexists _, _. split; [reflexivity | now right].
Qed.

(** ** Scenarios of the specification *)

(** A session started with situation "Generalized Anxiety", personality
    "Avoidant", style "formal" and role "therapist": status 200 and a single
    Patient entry with a non-empty text. *)
Example scenario_start :
  fst (start_session (Demo.env_with Demo.answering) (start_request Demo.params) init)
  = Ok (mkResponse 200
          (VDict [("response", VStr "I feel a little better today.");
                  ("conversation_history",
                   VList [VDict [("speaker", VStr "Patient");
                                 ("text", VStr "I feel a little better today.")]]);
                  ("situation", VStr "Generalized Anxiety");
                  ("personality", VStr "Avoidant");
                  ("style", VStr "formal");
                  ("role", VStr "therapist")])).
Proof. reflexivity. Qed.

(** The runner hangs: the reply is the timeout sentence, and it is
    classified like any other text. *)
Example scenario_timeout :
  fst (message (Demo.env_with Demo.hanging)
         (message_request Demo.params [seed_entry "I feel stuck."] "Tell me more.")
         init)
  = Ok (mkResponse 200
          (VDict [("conversation_history",
                   VList [seed_entry "I feel stuck.";
                          VDict [("speaker", VStr "You"); ("text", VStr "Tell me more.")];
                          VDict [("speaker", VStr "Patient");
                                 ("text", VStr "LLM request timed out.");
                                 ("mood", VStr "Neutral");
                                 ("mood_score", VFloat lit_0)]]);
                  ("response", VStr "LLM request timed out.");
                  ("evaluation", VDict [("color", VStr "YELLOW");
                                        ("text", VStr "LLM request timed out.")])])).
Proof. reflexivity. Qed.

(** The runner disappears after the patient's reply: status 500, and the
    history of the answer has the two entries appended so far. *)
Example scenario_partial_history :
  fst (message (Demo.env_with Demo.vanishing)
         (message_request Demo.params [seed_entry "I feel stuck."] "Tell me more.")
         init)
  = Ok (mkResponse 500
          (VDict [("error", VStr "[Errno 2] No such file or directory: 'ollama'");
                  ("conversation_history",
                   VList [seed_entry "I feel stuck.";
                          VDict [("speaker", VStr "You"); ("text", VStr "Tell me more.")];
                          VDict [("speaker", VStr "Patient");
                                 ("text", VStr "I feel worse than last week.");
                                 ("mood", VStr "Negative");
                                 ("mood_score", VFloat (neg Demo.lit_0_6))]]);
                  ("evaluation",
                   VDict [("color", VStr "RED");
                          ("text",
                           VStr "Error: [Errno 2] No such file or directory: 'ollama'")])])).
Proof. reflexivity. Qed.

(** A request without situation: [None.lower()] raises after the user's
    entry was appended, and the answer carries that partial history. *)
Example scenario_missing_situation :
  fst (message (Demo.env_with Demo.answering)
         (VDict [("conversation_history", VList []); ("message", VStr "Hello")])
         init)
  = Ok (mkResponse 500
          (VDict [("error", VStr "'NoneType' object has no attribute 'lower'");
                  ("conversation_history",
                   VList [VDict [("speaker", VStr "You"); ("text", VStr "Hello")]]);
                  ("evaluation",
                   VDict [("color", VStr "RED");
                          ("text",
                           VStr "Error: 'NoneType' object has no attribute 'lower'")])])).
Proof. reflexivity. Qed.

(** * Further properties of [app.py] *)

(** ** [call_ollama] *)

(** X1.  Whatever the outcome, [call_ollama] calls [subprocess.run] exactly
    once, on [ollama run <model> <prompt>]: there is no retry.  It prints
    one line when the runner exits with a non-zero status or times out, and
    nothing otherwise. *)
Theorem call_ollama_one_launch (E : env) (prompt model : string) (st : state) :
  launched (snd (call_ollama E prompt model st))
  = (launched st ++ [["ollama"; "run"; model; prompt]])%list
  /\ printed (snd (call_ollama E prompt model st))
     = (printed st ++ printed_for E model (launch_result E prompt model st))%list.
Proof.
  unfold launch_result, call_ollama, try_except, bind, run, ollama_argv.
  destruct (subprocess_run E _ _) as [out | e].
  - cbn. now rewrite app_nil_r.
  - destruct e; cbn; rewrite ?app_nil_r; split; reflexivity.
Qed.

(** ** The two classifiers together *)

Module Order.

Lemma compare_key (x y : float) :
  is_nan x = false -> is_nan y = false ->
  SFcompare x y = Some (key_compare (float_key x) (float_key y)).
Proof.
  destruct x as [sx | sx | | sx mx ex], y as [sy | sy | | sy my ey];
    intros Hx Hy; try discriminate;
    try (destruct sx; reflexivity); try (destruct sy; reflexivity);
    try (destruct sx, sy; reflexivity).
  destruct sx, sy; try reflexivity; cbn [SFcompare float_key key_compare].
  rewrite Z.compare_opp, (Z.compare_antisym ex ey).
  change (Pos.compare_cont Eq mx my) with (Pos.compare mx my).
  change (- Z.pos mx ?= - Z.pos my) with (CompOpp (Pos.compare mx my)).
  destruct (ex ?= ey); reflexivity.
Qed.

Lemma key_compare_lt a b : key_compare a b = Lt <-> key_lt a b.
Proof.
  destruct a as [[a1 a2] a3], b as [[b1 b2] b3]. unfold key_compare, key_lt.
  destruct (Z.compare_spec a1 b1) as [E1 | L1 | G1];
    destruct (Z.compare_spec a2 b2) as [E2 | L2 | G2];
    destruct (Z.compare_spec a3 b3) as [E3 | L3 | G3];
    split; intros Hyp; first [discriminate Hyp | reflexivity | lia].
Qed.

Lemma key_compare_eq a b : key_compare a b = Eq <-> a = b.
Proof.
  destruct a as [[a1 a2] a3], b as [[b1 b2] b3]. unfold key_compare.
  destruct (Z.compare_spec a1 b1) as [E1 | L1 | G1];
    destruct (Z.compare_spec a2 b2) as [E2 | L2 | G2];
    destruct (Z.compare_spec a3 b3) as [E3 | L3 | G3];
    split; intros Hyp;
    first [discriminate Hyp | reflexivity | now subst | inversion Hyp; lia].
Qed.

Lemma lt_key (x y : float) :
  is_nan x = false -> is_nan y = false ->
  lt x y = true <-> key_lt (float_key x) (float_key y).
Proof.
  intros Hx Hy. unfold lt, SFltb. rewrite (compare_key x y Hx Hy).
  rewrite <- key_compare_lt.
  destruct (key_compare _ _); split; intros H; try discriminate; reflexivity.
Qed.

Lemma le_key (x y : float) :
  is_nan x = false -> is_nan y = false ->
  le x y = true
  <-> key_lt (float_key x) (float_key y) \/ float_key x = float_key y.
Proof.
  intros Hx Hy. unfold le, SFleb. rewrite (compare_key x y Hx Hy).
  rewrite <- key_compare_lt, <- key_compare_eq.
  destruct (key_compare _ _); split; intros H; try discriminate; auto;
    destruct H; discriminate.
Qed.

Lemma key_lt_trans a b c : key_lt a b -> key_lt b c -> key_lt a c.
Proof.
  destruct a as [[a1 a2] a3], b as [[b1 b2] b3], c as [[c1 c2] c3].
  unfold key_lt. lia.
Qed.

(** Transitivity of the comparisons on numbers. *)
Lemma lt_le_trans (x y z : float) :
  is_nan x = false -> is_nan y = false -> is_nan z = false ->
  lt x y = true -> le y z = true -> lt x z = true.
Proof.
  intros Hx Hy Hz Hxy Hyz.
  apply (lt_key x y Hx Hy) in Hxy. apply (le_key y z Hy Hz) in Hyz.
  apply (lt_key x z Hx Hz).
  destruct Hyz as [Hyz | <-]; [eapply key_lt_trans; eassumption | exact Hxy].
Qed.

Lemma le_lt_trans (x y z : float) :
  is_nan x = false -> is_nan y = false -> is_nan z = false ->
  le x y = true -> lt y z = true -> lt x z = true.
Proof.
  intros Hx Hy Hz Hxy Hyz.
  apply (le_key x y Hx Hy) in Hxy. apply (lt_key y z Hy Hz) in Hyz.
  apply (lt_key x z Hx Hz).
  destruct Hxy as [Hxy | ->]; [eapply key_lt_trans; eassumption | exact Hyz].
Qed.

End Order.

(** The three comparisons of a score with [-0.3], read off one
    [SFcompare]. *)
Lemma compare_neg_lit (s : float) :
  is_nan s = false ->
  exists c,
    SFcompare s (neg lit_0_3) = Some c
    /\ lt s (neg lit_0_3) = match c with Lt => true | _ => false end
    /\ gt s (neg lit_0_3) = match c with Gt => true | _ => false end
    /\ float_eq s (neg lit_0_3) = match c with Eq => true | _ => false end.
Proof.
  intros Hs.
  destruct (FloatFacts.compare_number s (neg lit_0_3) Hs eq_refl) as [c Hc].
  exists c. unfold lt, gt, float_eq, SFltb, SFeqb.
  rewrite (FloatFacts.compare_swap s (neg lit_0_3)), Hc.
  destruct c; auto.
Qed.

(** X2.  On a polarity score the two classifiers of [/message] agree but
    for one value: Positive goes with GREEN and only with GREEN, Negative
    is always RED, YELLOW is always Neutral, and a score is Neutral and RED
    at once exactly when it equals [-0.3]. *)
Theorem mood_and_color (s : float) :
  polarity_score s = true ->
  (classify_mood s = Positive <-> classify_color s = GREEN)
  /\ (classify_mood s = Negative -> classify_color s = RED)
  /\ (classify_color s = YELLOW -> classify_mood s = Neutral)
  /\ (classify_mood s = Neutral /\ classify_color s = RED
      <-> float_eq s (neg lit_0_3) = true).
Proof.
  intros Hs. apply FloatFacts.polarity_score_number in Hs.
  destruct (compare_neg_lit s Hs) as (c & _ & Hlt & Hgt & Heq).
  pose proof (FloatFacts.gt_lit_trans s) as Htr.
  unfold classify_mood, classify_color. rewrite Hlt, Hgt, Heq.
  destruct (gt s lit_0_3).
  - specialize (Htr eq_refl). rewrite Hgt in Htr.
    destruct c; try discriminate Htr.
    repeat split; intros; try discriminate; try tauto.
    destruct H; discriminate.
  - destruct c; repeat split; intros; try discriminate; try tauto;
      destruct H; discriminate.
Qed.

Lemma mood_and_color_witness :
  polarity_score (neg lit_0_3) = true
  /\ classify_mood (neg lit_0_3) = Neutral
  /\ classify_color (neg lit_0_3) = RED.
Proof.
  split; [reflexivity|].
  destruct (mood_and_color (neg lit_0_3) eq_refl) as (_ & _ & _ & H).
  apply H. reflexivity.
Defined.

(** X3.  Both classifiers are monotone: of two polarity scores, the
    greater never gets the worse colour (RED, YELLOW, GREEN in this order)
    nor the worse mood (Negative, Neutral, Positive). *)
Theorem classifiers_monotone (s1 s2 : float) :
  polarity_score s1 = true ->
  polarity_score s2 = true ->
  le s1 s2 = true ->
  color_rank (classify_color s1) <= color_rank (classify_color s2)
  /\ mood_rank (classify_mood s1) <= mood_rank (classify_mood s2).
Proof.
  intros H1 H2 Hle.
  apply FloatFacts.polarity_score_number in H1, H2.
  destruct FloatFacts.is_nan_lit as [Hp Hn].
  assert (Hup : gt s1 lit_0_3 = true -> gt s2 lit_0_3 = true)
    by (intros H; exact (Order.lt_le_trans lit_0_3 s1 s2 Hp H1 H2 H Hle)).
  assert (Hup' : gt s1 (neg lit_0_3) = true -> gt s2 (neg lit_0_3) = true)
    by (intros H; exact (Order.lt_le_trans (neg lit_0_3) s1 s2 Hn H1 H2 H Hle)).
  assert (Hdown : lt s2 (neg lit_0_3) = true -> lt s1 (neg lit_0_3) = true)
    by (intros H; exact (Order.le_lt_trans s1 s2 (neg lit_0_3) H1 H2 Hn Hle H)).
  pose proof (FloatFacts.lt_lit_not_gt s1) as Hx1.
  pose proof (FloatFacts.lt_lit_not_gt s2) as Hx2.
  unfold classify_color, classify_mood.
  destruct (gt s1 lit_0_3), (gt s2 lit_0_3), (gt s1 (neg lit_0_3)),
    (gt s2 (neg lit_0_3)), (lt s1 (neg lit_0_3)), (lt s2 (neg lit_0_3));
    cbn [color_rank mood_rank]; split; try lia;
    first [ discriminate (Hup eq_refl) | discriminate (Hup' eq_refl)
          | discriminate (Hdown eq_refl) | discriminate (Hx1 eq_refl)
          | discriminate (Hx2 eq_refl) ].
Qed.

Lemma classifiers_monotone_witness :
  le (neg Demo.lit_0_6) Demo.lit_0_5 = true
  /\ color_rank (classify_color (neg Demo.lit_0_6))
     <= color_rank (classify_color Demo.lit_0_5).
Proof.
  split; [reflexivity|].
  apply (classifiers_monotone (neg Demo.lit_0_6) Demo.lit_0_5); reflexivity.
Defined.

(** ** Requests the handlers cannot process *)

Section Rejected.

Variable E : env.

Lemma entry_error_well_formed v :
  entry_error v = None <-> well_formed_entry v = true.
Proof.
  destruct v as [| | | | | |fields]; cbn; try (split; discriminate).
  destruct (lookup "speaker" fields), (lookup "text" fields);
    split; intros H; try discriminate H; reflexivity.
Qed.

Lemma entry_line_error entry e :
  entry_error entry = Some e -> result_of (entry_line E entry) = Raise e.
Proof.
  destruct entry as [| | | | | |fields]; cbn; try (intros H; now inversion H).
  unfold result_of, entry_line, subscript, bind.
  destruct (lookup "speaker" fields); [|intros H; now inversion H].
  destruct (lookup "text" fields); [discriminate | intros H; now inversion H].
Qed.

(** The generator stops at the first entry it cannot format. *)
Lemma entry_lines_first_error good bad rest e :
  forallb well_formed_entry good = true ->
  entry_error bad = Some e ->
  result_of (entry_lines E (good ++ bad :: rest)) = Raise e.
Proof.
  intros Hg Hb. induction good as [|entry good IH].
  - unfold result_of. cbn [app entry_lines]. unfold bind.
    now rewrite entry_line_pure, (entry_line_error _ _ Hb).
  - cbn [forallb] in Hg. apply andb_prop in Hg as [He Hg].
    unfold result_of. cbn [app entry_lines]. unfold bind.
    rewrite entry_line_pure, (entry_line_ok E _ He).
    rewrite entry_lines_pure, (IH Hg). reflexivity.
Qed.

Lemma conversation_context_first_error good bad rest e :
  forallb well_formed_entry good = true ->
  entry_error bad = Some e ->
  result_of (conversation_context E (VList (good ++ bad :: rest))) = Raise e.
Proof.
  intros Hg Hb. unfold result_of, conversation_context, bind.
  now rewrite entry_lines_pure, (entry_lines_first_error _ _ _ _ Hg Hb).
Qed.

Lemma restore_frame st : with_local (with_local st None) (local_history st) = st.
Proof. destruct st; reflexivity. Qed.

(** An exception of the [try] block that comes before the first launch is
    answered from the state the request found. *)
Lemma message_rejected fields st e history :
  message_try E (VDict fields) (with_local st None)
  = (Raise e, with_local (with_local st None) (Some history)) ->
  message E (VDict fields) st
  = (Ok (mkResponse 500 (VDict (error_body E e history))), st).
Proof.
  intros H. rewrite message_unfold, H.
  rewrite (message_except_bound E e
             (with_local (with_local st None) (Some history)) history eq_refl).
  cbv beta iota. unfold with_local. cbn [launched printed].
  destruct st; reflexivity.
Qed.

Lemma message_rest_context_error fields st entries e :
  local_history st = Some (VList entries) ->
  result_of (conversation_context E (VList entries)) = Raise e ->
  message_rest E fields st = (Raise e, st).
Proof.
  intros Hloc Hc. unfold message_rest.
  rewrite (bind_ok _ _ _ _ _ (read_history_bound _ _ Hloc)).
  apply bind_raise. now rewrite conversation_context_pure, Hc.
Qed.


End Rejected.

(** X4.  A request whose JSON body is not an object (null, a list, a
    string, a number) is answered by no handler: [data.get] raises
    [AttributeError], which leaves [start_session] and [evaluate] as it is
    and leaves [message] as the [UnboundLocalError] of its [except] clause.
    Nothing is launched or printed. *)
Theorem non_object_body (E : env) (data : value) (st : state) :
  is_dict data = false ->
  start_session E data st = (Raise (AttributeError (type_name data) "get"), st)
  /\ evaluate E data st = (Raise (AttributeError (type_name data) "get"), st)
  /\ message E data st = (Raise (UnboundLocalError "conversation_history"), st).
Proof.
  intros H. split; [|split].
  - destruct data; try reflexivity; discriminate H.
  - destruct data; try reflexivity; discriminate H.
  - apply message_not_dict. intros fields ->. discriminate H.
Qed.

Lemma non_object_body_witness :
  is_dict (VList [VStr "hello"]) = false
  /\ evaluate (Demo.env_with Demo.answering) (VList [VStr "hello"]) init
     = (Raise (AttributeError "list" "get"), init).
Proof.
  split; [reflexivity|].
  apply (non_object_body (Demo.env_with Demo.answering) (VList [VStr "hello"]) init).
  reflexivity.
Defined.

(** X5.  When the conversation history of a [/message] request is not a
    list (null, a string, a number, an object), [append] raises: the answer
    has status 500, carries the history exactly as it came, and the runner
    is not launched. *)
Theorem message_history_not_a_list (E : env) (fields : list (string * value))
  (st : state) :
  is_list (request_history fields) = false ->
  message E (VDict fields) st
  = (Ok (mkResponse 500
           (VDict (error_body E
                     (AttributeError (type_name (request_history fields)) "append")
                     (request_history fields)))),
     st).
Proof.
  intros H. apply message_rejected. rewrite message_try_dict.
  destruct (request_history fields); try reflexivity. discriminate H.
Qed.

Lemma message_history_not_a_list_witness :
  is_list (request_history [("conversation_history", VNone)]) = false
  /\ fst (message (Demo.env_with Demo.answering)
            (VDict [("conversation_history", VNone)]) init)
     = Ok (mkResponse 500
             (VDict [("error", VStr "'NoneType' object has no attribute 'append'");
                     ("conversation_history", VNone);
                     ("evaluation",
                      VDict [("color", VStr "RED");
                             ("text",
                              VStr "Error: 'NoneType' object has no attribute 'append'")])])).
Proof.
  split; [reflexivity|].
  rewrite (message_history_not_a_list (Demo.env_with Demo.answering)
             [("conversation_history", VNone)] init eq_refl).
  reflexivity.
Defined.

(** X6.  When an entry of the history of a [/message] request cannot be
    formatted (it is no object, or has no speaker, or no text), the answer
    has status 500 with the error of the first such entry, its history is
    the one of the request followed by the user's entry, and the runner is
    not launched. *)
Theorem message_ill_formed_entry (E : env) (fields : list (string * value))
  (st : state) (good rest : list value) (bad : value) (e : exn) :
  request_history fields = VList (good ++ bad :: rest) ->
  forallb well_formed_entry good = true ->
  entry_error bad = Some e ->
  message E (VDict fields) st
  = (Ok (mkResponse 500
           (VDict (error_body E e
                     (VList ((good ++ bad :: rest)
                             ++ [VDict [("speaker", VStr "You");
                                        ("text", field "message" fields)]]))))),
     st).
Proof.
  intros Hh Hg Hb. apply message_rejected. rewrite message_try_dict, Hh.
  eapply message_rest_context_error; [reflexivity|].
  rewrite <- app_assoc. cbn [app].
  exact (conversation_context_first_error E good bad _ e Hg Hb).
Qed.

Lemma message_ill_formed_entry_witness :
  fst (message (Demo.env_with Demo.answering)
         (VDict [("conversation_history",
                  VList [seed_entry "I feel stuck."; VDict [("speaker", VStr "You")]]);
                 ("message", VStr "Tell me more.")]) init)
  = Ok (mkResponse 500
          (VDict [("error", VStr "'text'");
                  ("conversation_history",
                   VList [seed_entry "I feel stuck."; VDict [("speaker", VStr "You")];
                          you_entry (VStr "Tell me more.")]);
                  ("evaluation",
                   VDict [("color", VStr "RED"); ("text", VStr "Error: 'text'")])])).
Proof.
  rewrite (message_ill_formed_entry (Demo.env_with Demo.answering)
             [("conversation_history",
               VList [seed_entry "I feel stuck."; VDict [("speaker", VStr "You")]]);
              ("message", VStr "Tell me more.")]
             init [seed_entry "I feel stuck."] [] (VDict [("speaker", VStr "You")])
             (KeyError "text") eq_refl eq_refl eq_refl).
  reflexivity.
Defined.



(** ** Launches *)

Section Launches.

Variable E : env.

Lemma launches_none n st st' :
  launched st' = launched st -> launches_within n st st'.
Proof.
  intros H. exists []. rewrite app_nil_r. repeat split; [exact H | cbn; lia | constructor].
Qed.

Lemma launches_one n st st' prompt :
  (1 <= n)%nat ->
  launched st' = (launched st ++ [ollama_argv default_model prompt])%list ->
  launches_within n st st'.
Proof.
  intros Hn H. exists [ollama_argv default_model prompt].
  repeat split; [exact H | cbn; lia | repeat constructor; now exists prompt].
Qed.

Lemma launches_two n st st' prompt1 prompt2 :
  (2 <= n)%nat ->
  launched st'
  = (launched st ++ [ollama_argv default_model prompt1;
                     ollama_argv default_model prompt2])%list ->
  launches_within n st st'.
Proof.
  intros Hn H.
  exists [ollama_argv default_model prompt1; ollama_argv default_model prompt2].
  repeat split; [exact H | cbn; lia |].
  repeat constructor; [now exists prompt1 | now exists prompt2].
Qed.

Lemma start_session_launches data st :
  launches_within 1 st (snd (start_session E data st)).
Proof.
  destruct data as [| | | | | |fields]; try (apply launches_none; reflexivity).
  rewrite start_session_dict.
  destruct (negb _); [apply launches_none; reflexivity|].
  unfold bind at 1. rewrite lower_pure.
  destruct (result_of (lower E _)) as [sl | e]; [|apply launches_none; reflexivity].
  unfold bind at 1. rewrite lower_pure.
  destruct (result_of (lower E _)) as [pl | e]; [|apply launches_none; reflexivity].
  unfold bind at 1.
  destruct (call_ollama E _ default_model st) as [[reply | e] st1] eqn:Hcall;
    apply call_ollama_effect in Hcall as [Hl _];
    eapply launches_one; try exact Hl; lia.
Qed.

Lemma evaluate_launches data st :
  launches_within 1 st (snd (evaluate E data st)).
Proof.
  destruct data as [| | | | | |fields]; try (apply launches_none; reflexivity).
  rewrite evaluate_dict.
  destruct (negb _); [apply launches_none; reflexivity|].
  unfold bind at 1. rewrite conversation_context_pure.
  destruct (result_of (conversation_context E _)) as [context | e];
    [|apply launches_none; reflexivity].
  unfold bind at 1.
  destruct (call_ollama E _ default_model st) as [[reply | e] st1] eqn:Hcall;
    apply call_ollama_effect in Hcall as [Hl _];
    eapply launches_one; try exact Hl; lia.
Qed.

Lemma message_rest_launches fields st entries :
  local_history st = Some (VList entries) ->
  launches_within 2 st (snd (message_rest E fields st)).
Proof.
  intros Hloc. unfold message_rest.
  rewrite (bind_ok _ _ _ _ _ (read_history_bound _ _ Hloc)).
  unfold bind at 1. rewrite conversation_context_pure.
  destruct (result_of (conversation_context E _)) as [context | e];
    [|apply launches_none; reflexivity].
  unfold bind at 1. rewrite lower_pure.
  destruct (result_of (lower E _)) as [sl | e]; [|apply launches_none; reflexivity].
  unfold bind at 1. rewrite lower_pure.
  destruct (result_of (lower E _)) as [pl | e]; [|apply launches_none; reflexivity].
  unfold bind at 1.
  destruct (call_ollama E _ default_model st) as [[reply | e] st1] eqn:Hcall1;
    apply call_ollama_effect in Hcall1 as [Hl1 Hh1];
    [|eapply launches_one; try exact Hl1; lia].
  rewrite Hloc in Hh1.
  rewrite (bind_ok _ _ _ _ _ (append_history_list _ _ _ Hh1)).
  unfold bind at 1.
  destruct (call_ollama E _ default_model (with_local st1 _))
    as [[evaluation | e] st2] eqn:Hcall2;
    apply call_ollama_effect in Hcall2 as [Hl2 Hh2];
    cbn [with_local launched local_history] in Hl2, Hh2;
    rewrite Hl1, <- app_assoc in Hl2; cbn [app] in Hl2.
  - rewrite (bind_ok _ _ _ _ _ (read_history_bound _ _ Hh2)).
    eapply launches_two; try exact Hl2; lia.
  - eapply launches_two; try exact Hl2; lia.
Qed.

Lemma message_except_state e st : snd (message_except E e st) = st.
Proof.
  unfold message_except, bind, read_history.
  destruct (local_history st); reflexivity.
Qed.

Lemma message_launches data st :
  launches_within 2 st (snd (message E data st)).
Proof.
  rewrite message_unfold.
  assert (Htry : launches_within 2 st (snd (message_try E data (with_local st None)))).
  { destruct data as [| | | | | |fields]; try (apply launches_none; reflexivity).
    rewrite message_try_dict.
    destruct (request_history fields) as [| | | | |entries|];
      try (apply launches_none; reflexivity).
    exact (message_rest_launches fields
             (with_local (with_local st None)
                (Some (VList (entries ++ [you_entry (field "message" fields)]))))
             _ eq_refl). }
  destruct (message_try E data (with_local st None)) as [[r | e] st1]; [exact Htry|].
  pose proof (message_except_state e st1) as Hst.
  destruct (message_except E e st1) as [o st2]. cbn [snd] in Hst. subst st2.
  exact Htry.
Qed.

End Launches.

(** X9.  The handlers launch the runner only as [ollama run llama3.2:3b
    <prompt>], whatever the request: [start_session] and [evaluate] at most
    once, [message] at most twice, and they never remove a launch from the
    record. *)
Theorem handlers_launches (E : env) (data : value) (st : state) :
  launches_within 1 st (snd (start_session E data st))
  /\ launches_within 2 st (snd (message E data st))
  /\ launches_within 1 st (snd (evaluate E data st)).
Proof.
  split; [|split].
  - apply start_session_launches.
  - apply message_launches.
  - apply evaluate_launches.
Qed.

(** ** Validation in [/start] and [/evaluate] *)

Lemma no_field_empty fields :
  all [field "situation" fields; field "personality" fields;
       field "style" fields; field "role" fields] = true
  <-> forall key, In key parameter_names -> empty_or_absent key fields = false.
Proof.
  split.
  - intros H key Hin. destruct (empty_or_absent key fields) eqn:Hk; [|reflexivity].
    assert (Hf : all [field "situation" fields; field "personality" fields;
                      field "style" fields; field "role" fields] = false)
      by (apply all_four; eauto).
    congruence.
  - intros H. destruct (all _) eqn:Hall; [reflexivity|].
    apply all_four in Hall as (key & Hin & Hk). rewrite (H key Hin) in Hk.
    discriminate Hk.
Qed.

(** X10.  The validation of [/start] and of [/evaluate] is exact.  When
    [start_session] answers a JSON object, the status is 400 if one of the
    four parameters is empty or absent and 200 if none is; when [evaluate]
    answers, the status is 400 if the history is empty or absent (or any
    other value Python counts as false) and 200 otherwise.  A 400 answer
    launches nothing. *)
Theorem validation_exact (E : env) (fields : list (string * value))
  (st st' : state) (r : response) :
  (start_session E (VDict fields) st = (Ok r, st') ->
   (status r = 400
    /\ (exists key, In key parameter_names /\ empty_or_absent key fields = true)
    /\ st' = st)
   \/ (status r = 200
       /\ forall key, In key parameter_names -> empty_or_absent key fields = false))
  /\ (evaluate E (VDict fields) st = (Ok r, st') ->
      (status r = 400 /\ truthy (request_history fields) = false /\ st' = st)
      \/ (status r = 200 /\ truthy (request_history fields) = true)).
Proof.
  split.
  - rewrite start_session_dict.
    destruct (all _) eqn:Hall; cbn [negb]; intros H.
    + right. split; [|exact (proj1 (no_field_empty fields) Hall)].
      apply bind_ok_inv in H as (sl & st1 & _ & H).
      apply bind_ok_inv in H as (pl & st2 & _ & H).
      apply bind_ok_inv in H as (reply & st3 & _ & H).
      now inversion H.
    + left. apply all_four in Hall. inversion H; subst. auto.
  - rewrite evaluate_dict.
    destruct (truthy (request_history fields)); cbn [negb]; intros H.
    + right. split; [|reflexivity].
      apply bind_ok_inv in H as (context & st1 & _ & H).
      apply bind_ok_inv in H as (evaluation & st2 & _ & H).
      now inversion H.
    + left. inversion H; subst. auto.
Qed.

Lemma validation_exact_witness :
  evaluate (Demo.env_with Demo.answering) (VDict [("conversation_history", VInt 0)])
    init
  = (Ok (mkResponse 400 (VDict [("error", VStr "No conversation history provided")])),
     init)
  /\ truthy (request_history [("conversation_history", VInt 0)]) = false.
Proof.
  split; [reflexivity|].
  destruct (validation_exact (Demo.env_with Demo.answering)
              [("conversation_history", VInt 0)] init init
              (mkResponse 400
                 (VDict [("error", VStr "No conversation history provided")])))
    as [_ H].
  destruct (H eq_refl) as [(_ & Hf & _) | (H200 & _)];
    [exact Hf | discriminate H200].
Defined.

(** X11.  [/start] checks that its parameters are non-empty, not that
    they are strings.  A situation, or else a personality, that is true for
    Python without being a string (a number, a list) passes the check and
    makes [lower] raise [AttributeError] out of the handler, before any
    launch.  Style and role are only formatted: with a string situation and
    personality the handler launches the runner whatever their type. *)
Theorem start_session_parameter_types (E : env) (fields : list (string * value))
  (st : state) :
  (forall key, In key parameter_names -> empty_or_absent key fields = false) ->
  (is_str (field "situation" fields) = false ->
   start_session E (VDict fields) st
   = (Raise (AttributeError (type_name (field "situation" fields)) "lower"), st))
  /\ (is_str (field "situation" fields) = true ->
      is_str (field "personality" fields) = false ->
      start_session E (VDict fields) st
      = (Raise (AttributeError (type_name (field "personality" fields)) "lower"),
         st))
  /\ (forall s p,
         field "situation" fields = VStr s ->
         field "personality" fields = VStr p ->
         launched (snd (start_session E (VDict fields) st))
         = (launched st
            ++ [ollama_argv default_model
                  (initial_prompt (str_lower E s) (str_lower E p)
                     (fmt E (field "style" fields))
                     (fmt E (field "role" fields)))])%list).
Proof.
  intros Hall. rewrite start_session_dict, (proj2 (no_field_empty fields) Hall).
  cbn [negb].
  split; [|split].
  - intros Hs. apply bind_raise.
    destruct (field "situation" fields); try reflexivity. discriminate Hs.
  - intros Hs Hp.
    destruct (field "situation" fields) as [| | | |s| |]; try discriminate Hs.
    rewrite (bind_ok (lower E (VStr s)) _ st (str_lower E s) st eq_refl).
    apply bind_raise.
    destruct (field "personality" fields); try reflexivity. discriminate Hp.
  - intros s p -> ->.
    rewrite (bind_ok (lower E (VStr s)) _ st (str_lower E s) st eq_refl).
    rewrite (bind_ok (lower E (VStr p)) _ st (str_lower E p) st eq_refl).
    unfold bind.
    destruct (call_ollama E _ default_model st) as [[reply | e] st1] eqn:Hcall;
      apply call_ollama_effect in Hcall as [Hl _]; exact Hl.
Qed.

Lemma start_session_parameter_types_witness :
  start_session (Demo.env_with Demo.answering)
    (VDict [("situation", VInt 5); ("personality", VStr "Avoidant");
            ("style", VStr "formal"); ("role", VStr "therapist")]) init
  = (Raise (AttributeError "int" "lower"), init).
Proof.
  destruct (start_session_parameter_types (Demo.env_with Demo.answering)
              [("situation", VInt 5); ("personality", VStr "Avoidant");
               ("style", VStr "formal"); ("role", VStr "therapist")] init)
    as [H _].
  - intros key [<- | [<- | [<- | [<- | []]]]]; reflexivity.
  - exact (H eq_refl).
Defined.

(** X12.  [/evaluate] has no [try]: a history that is true for Python
    without being a list (a non-empty string or object, a number) makes the
    generator raise [TypeError] out of the handler, and a list with an entry
    that cannot be formatted makes it raise the error of the first such
    entry.  In both cases nothing is launched. *)
Theorem evaluate_raises (E : env) (fields : list (string * value)) (st : state) :
  (truthy (request_history fields) = true ->
   is_list (request_history fields) = false ->
   evaluate E (VDict fields) st
   = (Raise (TypeError (if is_str (request_history fields)
                           || is_dict (request_history fields)
                        then "str"
                        else type_name (request_history fields))), st))
  /\ (forall good bad rest e,
         request_history fields = VList (good ++ bad :: rest) ->
         forallb well_formed_entry good = true ->
         entry_error bad = Some e ->
         evaluate E (VDict fields) st = (Raise e, st)).
Proof.
  split.
  - intros Ht Hl. rewrite evaluate_dict, Ht. cbn [negb].
    apply bind_raise.
    destruct (request_history fields) as [| | | |s|items|fs];
      try reflexivity; try discriminate Ht; try discriminate Hl.
    + cbn in Ht. cbn. destruct (s =? "")%string; [discriminate Ht | reflexivity].
    + destruct fs; [discriminate Ht | reflexivity].
  - intros good bad rest e Hh Hg Hb. rewrite evaluate_dict, Hh.
    assert (Ht : truthy (VList (good ++ bad :: rest)) = true)
      by (destruct good; reflexivity).
    rewrite Ht. cbn [negb]. apply bind_raise.
    now rewrite conversation_context_pure,
      (conversation_context_first_error E _ _ _ _ Hg Hb).
Qed.

Lemma evaluate_raises_witness :
  evaluate (Demo.env_with Demo.answering)
    (VDict [("conversation_history", VList [VStr "Patient: I feel stuck."])]) init
  = (Raise (TypeError "str"), init).
Proof.
  destruct (evaluate_raises (Demo.env_with Demo.answering)
              [("conversation_history", VList [VStr "Patient: I feel stuck."])] init)
    as [_ H].
  exact (H [] (VStr "Patient: I feel stuck.") [] (TypeError "str")
           eq_refl eq_refl eq_refl).
Defined.

(** ** A turn that succeeds *)

(** X13.  A [/message] request with a list of well-formed entries for
    history and strings for situation and personality is answered with
    status 200 whenever its two launches end in an exit status or a timeout;
    message, style and role may be absent.  The reply of the first launch is
    the response and the text of the new Patient entry; the stripped reply
    of the second is the evaluation text, coloured by its polarity.  A
    failure of the runner thus shows in the texts, not in the status. *)
Theorem message_success (E : env) (fields : list (string * value)) (st : state)
  (entries : list value) (s p : string) :
  request_history fields = VList entries ->
  forallb well_formed_entry entries = true ->
  field "situation" fields = VStr s ->
  field "personality" fields = VStr p ->
  let history := (entries ++ [you_entry (field "message" fields)])%list in
  let first :=
    subprocess_run E (List.length (launched st))
      (turn_argv E fields s p (join nl (map (line_of E) history))) in
  let second :=
    subprocess_run E (S (List.length (launched st))) (critique_argv E fields) in
  handled first = true ->
  handled second = true ->
  fst (message E (VDict fields) st)
  = Ok (mkResponse 200
          (VDict [("conversation_history",
                   VList (history ++ [patient_entry E (reply_of E first)]));
                  ("response", VStr (reply_of E first));
                  ("evaluation",
                   VDict [("color",
                           VStr (color_name
                                   (classify_color
                                      (sentiment_polarity E
                                         (str_strip E (reply_of E second))))));
                          ("text", VStr (str_strip E (reply_of E second)))])])).
Proof.
  intros Hh Hwf Hs Hp history first second H1 H2.
  assert (Hwf' : forallb well_formed_entry history = true)
    by (unfold history; now rewrite forallb_snoc, Hwf).
  rewrite message_unfold, message_try_dict, Hh.
  erewrite message_rest_steps;
    [ | reflexivity | exact (conversation_context_ok E _ Hwf') | exact Hs | exact Hp ].
  match goal with
  | |- context [call_ollama E ?prompt default_model ?st0] =>
      destruct (call_ollama_handled E prompt default_model st0 H1)
        as (st1 & Hcall1 & Hl1 & _)
  end.
  rewrite Hcall1.
  match goal with
  | |- context [call_ollama E ?prompt default_model ?st0] =>
      assert (Hsecond : launch_result E prompt default_model st0 = second)
        by (unfold launch_result, second, critique_argv;
            cbn [with_local launched]; rewrite Hl1; cbn [with_local launched];
            rewrite length_app; cbn [List.length]; now rewrite Nat.add_1_r);
      destruct (call_ollama_handled E prompt default_model st0)
        as (st2 & Hcall2 & _ & _); [rewrite Hsecond; exact H2|]
  end.
  rewrite Hcall2, Hsecond. reflexivity.
Qed.

Lemma message_success_witness :
  fst (message (Demo.env_with Demo.hanging)
         (VDict [("conversation_history", VList [seed_entry "I feel stuck."]);
                 ("situation", VStr "Grief"); ("personality", VStr "Guarded")])
         init)
  = Ok (mkResponse 200
          (VDict [("conversation_history",
                   VList [seed_entry "I feel stuck."; you_entry VNone;
                          patient_entry (Demo.env_with Demo.hanging)
                            "LLM request timed out."]);
                  ("response", VStr "LLM request timed out.");
                  ("evaluation", VDict [("color", VStr "YELLOW");
                                        ("text", VStr "LLM request timed out.")])])).
Proof.
  rewrite (message_success (Demo.env_with Demo.hanging)
             [("conversation_history", VList [seed_entry "I feel stuck."]);
              ("situation", VStr "Grief"); ("personality", VStr "Guarded")]
             init [seed_entry "I feel stuck."] "Grief" "Guarded"
             eq_refl eq_refl eq_refl eq_refl eq_refl eq_refl).
  reflexivity.
Defined.

(** ** The context of a growing history *)

Lemma append_assoc (a b c : string) : ((a ++ b) ++ c = a ++ (b ++ c))%string.
Proof. induction a as [|ch a IH]; [reflexivity|]. cbn. now rewrite IH. Qed.

Lemma join_app sep (l1 l2 : list string) :
  l1 <> [] -> l2 <> [] ->
  join sep (l1 ++ l2) = (join sep l1 ++ sep ++ join sep l2)%string.
Proof.
  intros H1 H2. induction l1 as [|a [|b l1] IH]; [now destruct H1| |].
  - destruct l2 as [|c l2]; [now destruct H2|]. reflexivity.
  - change (join sep ((a :: b :: l1) ++ l2))
      with (a ++ sep ++ join sep ((b :: l1) ++ l2))%string.
    rewrite IH by discriminate.
    change (join sep (a :: b :: l1)) with (a ++ sep ++ join sep (b :: l1))%string.
    now rewrite !append_assoc.
Qed.

(** X14.  The context of line 91 grows with the history: the context of
    two non-empty histories put end to end is the context of the first, a
    newline, and the context of the second; the context of the empty history
    is the empty string.  So the context of a turn is the context of the
    request's history, a newline and the line of the user's entry, without a
    leading newline when that history is empty. *)
Theorem conversation_context_app (E : env) (first second : list value)
  (context1 context2 : string) :
  result_of (conversation_context E (VList first)) = Ok context1 ->
  result_of (conversation_context E (VList second)) = Ok context2 ->
  result_of (conversation_context E (VList []))= Ok ""
  /\ result_of (conversation_context E (VList (first ++ second)))
     = Ok (match first, second with
           | [], _ => context2
           | _, [] => context1
           | _, _ => context1 ++ nl ++ context2
           end).
Proof.
  intros H1 H2. split; [reflexivity|].
  apply conversation_context_ok_inv in H1 as [Hwf1 ->].
  apply conversation_context_ok_inv in H2 as [Hwf2 ->].
  rewrite conversation_context_ok by (now rewrite forallb_app, Hwf1, Hwf2).
  f_equal. rewrite map_app.
  destruct first as [|a first]; [reflexivity|].
  destruct second as [|b second]; [now rewrite app_nil_r|].
  apply join_app; discriminate.
Qed.

Lemma conversation_context_app_witness :
  result_of (conversation_context (Demo.env_with Demo.answering)
               (VList ([seed_entry "I feel stuck."]
                       ++ [you_entry (VStr "Tell me more.")])))
  = Ok ("Patient: I feel stuck." ++ nl ++ "You: Tell me more.").
Proof.
  destruct (conversation_context_app (Demo.env_with Demo.answering)
              [seed_entry "I feel stuck."] [you_entry (VStr "Tell me more.")]
              "Patient: I feel stuck." "You: Tell me more." eq_refl eq_refl)
    as [_ H].
  exact H.
Defined.

(** ** Histories the handlers return *)

Section Returned.

Variable E : env.

Lemma returned_status r entries :
  returned_history r = Some entries ->
  status r = 200 /\ body_field "conversation_history" r = Some (VList entries).
Proof.
  unfold returned_history. destruct (status r =? 200) eqn:Hs; [|discriminate].
  apply Z.eqb_eq in Hs.
  destruct (body_field "conversation_history" r) as [[| | | | |l|]|];
    try discriminate.
  intros H; inversion H; auto.
Qed.

(** A history answered with status 200 by [/start] or [/message] is a list
    of well-formed entries. *)
Lemma returned_well_formed data st r st' entries :
  start_session E data st = (Ok r, st') \/ message E data st = (Ok r, st') ->
  returned_history r = Some entries ->
  forallb well_formed_entry entries = true.
Proof.
  intros H Hr. apply returned_status in Hr as [H200 Hb].
  destruct H as [H | H].
  - destruct (start_session_ok_inv E _ _ _ _ H H200)
      as (fields & s & p & reply & _ & _ & _ & _ & _ & ->).
    cbn in Hb. inversion Hb. reflexivity.
  - destruct (message_ok_inv E _ _ _ _ H H200)
      as (fields & history & context & s & p & reply & evaluation
          & _ & _ & Hc & _ & _ & -> & _ & _).
    cbn in Hb. inversion Hb; subst entries.
    apply conversation_context_ok_inv in Hc as [Hwf _].
    rewrite forallb_app in Hwf. apply andb_prop in Hwf as [Hwf _].
    rewrite forallb_app, Hwf. reflexivity.
Qed.

Lemma returned_not_empty data st r st' entries :
  start_session E data st = (Ok r, st') \/ message E data st = (Ok r, st') ->
  returned_history r = Some entries ->
  entries <> [].
Proof.
  intros H Hr. apply returned_status in Hr as [H200 Hb].
  destruct H as [H | H].
  - destruct (start_session_ok_inv E _ _ _ _ H H200)
      as (fields & s & p & reply & _ & _ & _ & _ & _ & ->).
    cbn in Hb. inversion Hb. discriminate.
  - destruct (message_ok_inv E _ _ _ _ H H200)
      as (fields & history & context & s & p & reply & evaluation
          & _ & _ & _ & _ & _ & -> & _ & _).
    cbn in Hb. inversion Hb. now destruct history.
Qed.

End Returned.

(** X15.  The handlers accept what they return.  The history of a status
    200 answer of [/start] or [/message] is a non-empty list of entries with
    speaker and text; sent to [/evaluate], it is never refused with status
    400 and never makes the generator raise: the runner is launched on the
    session prompt over its lines. *)
Theorem returned_history_accepted (E : env) (data : value) (st st' : state)
  (r : response) (entries : list value) :
  start_session E data st = (Ok r, st') \/ message E data st = (Ok r, st') ->
  returned_history r = Some entries ->
  forallb well_formed_entry entries = true
  /\ forall st2,
       evaluate E (VDict [("conversation_history", VList entries)]) st2
       = (evaluation <- call_ollama E
                          (session_prompt (join nl (map (line_of E) entries)))
                          default_model ;;
          ret (mkResponse 200 (VDict [("evaluation", VStr evaluation)]))) st2.
Proof.
  intros H Hr.
  pose proof (returned_well_formed E _ _ _ _ _ H Hr) as Hwf.
  pose proof (returned_not_empty E _ _ _ _ _ H Hr) as Hne.
  split; [exact Hwf|]. intros st2.
  exact (evaluate_proceeds E [("conversation_history", VList entries)] entries st2
           eq_refl Hne Hwf).
Qed.

Lemma returned_history_accepted_witness :
  forallb well_formed_entry [seed_entry "I feel a little better today."] = true.
Proof.
  refine (proj1 (returned_history_accepted (Demo.env_with Demo.answering)
                   (start_request Demo.params) init
                   (with_launch init
                      (ollama_argv default_model
                         (start_prompt (Demo.env_with Demo.answering) Demo.params)))
                   (jsonify (start_body (params_fields Demo.params)
                               "I feel a little better today."))
                   [seed_entry "I feel a little better today."]
                   (or_introl eq_refl) eq_refl)).
Defined.

(** ** Transcripts *)

Section Transcript.

Variable E : env.

Lemma turns_transcript p user_messages : forall history st entries st',
  turns E p history user_messages st = (Some entries, st') ->
  exists replies,
    List.length replies = List.length user_messages
    /\ entries
       = (history ++ flat_map (turn_entries E) (combine user_messages replies))%list.
Proof.
  induction user_messages as [|m rest IH]; intros history st entries st' H.
  - cbn in H. inversion H; subst. exists []. now rewrite app_nil_r.
  - cbn [turns] in H.
    destruct (message E (message_request p history m) st) as [[r | e] st1] eqn:Hm;
      [|discriminate H].
    destruct (returned_history r) as [history'|] eqn:Hr; [|discriminate H].
    destruct (turn_returns E _ _ _ _ _ _ _ Hm Hr) as (reply & ->).
    destruct (IH _ _ _ _ H) as (replies & Hlen & ->).
    exists (reply :: replies). split; [cbn; now rewrite Hlen|].
    cbn [combine flat_map turn_entries fst snd]. now rewrite <- app_assoc.
Qed.

Lemma transcript_speakers first_reply (turns : list (string * string)) :
  map entry_speaker (transcript E first_reply turns)
  = VStr "Patient" :: flat_map (fun _ => [VStr "You"; VStr "Patient"]) turns.
Proof.
  unfold transcript. cbn [map]. f_equal.
  induction turns as [|turn rest IH]; [reflexivity|].
  cbn [flat_map]. rewrite map_app, IH. reflexivity.
Qed.

Lemma transcript_user_texts first_reply (turns : list (string * string)) :
  map entry_text
    (filter (fun entry => match entry_speaker entry with
                          | VStr speaker => (speaker =? "You")%string
                          | _ => false
                          end)
       (transcript E first_reply turns))
  = map (fun turn => VStr (fst turn)) turns.
Proof.
  unfold transcript. cbn [filter entry_speaker seed_entry field lookup].
  cbn. induction turns as [|turn rest IH]; [reflexivity|].
  cbn. now rewrite IH.
Qed.

End Transcript.

(** X16.  The history of a session that succeeds is a transcript: the
    Patient entry of [/start], then for each user message, in order, a "You"
    entry with that message and a Patient entry.  Speakers alternate,
    starting and ending with the patient, and the texts of the "You"
    entries are the user's messages in the order they were sent. *)
Theorem session_transcript (E : env) (p : session_parameters)
  (user_messages : list string) (st st' : state) (entries : list value) :
  session E p user_messages st = (Some entries, st') ->
  exists first_reply replies,
    List.length replies = List.length user_messages
    /\ entries = transcript E first_reply (combine user_messages replies)
    /\ map entry_speaker entries
       = VStr "Patient"
         :: flat_map (fun _ => [VStr "You"; VStr "Patient"]) user_messages
    /\ map entry_text
         (filter (fun entry => match entry_speaker entry with
                               | VStr speaker => (speaker =? "You")%string
                               | _ => false
                               end) entries)
       = map VStr user_messages.
Proof.
  unfold session.
  destruct (start_session E (start_request p) st) as [[r | e] st1] eqn:Hs;
    [|discriminate].
  destruct (returned_history r) as [history|] eqn:Hr; [|discriminate].
  destruct (start_returns E _ _ _ _ _ Hs Hr) as (first_reply & ->).
  intros H. destruct (turns_transcript E _ _ _ _ _ _ H) as (replies & Hlen & ->).
  exists first_reply, replies.
  change ([seed_entry first_reply]
          ++ flat_map (turn_entries E) (combine user_messages replies))%list
    with (transcript E first_reply (combine user_messages replies)).
  split; [exact Hlen|]. split; [reflexivity|]. split.
  - rewrite transcript_speakers. f_equal. clear H Hs Hr.
    revert replies Hlen.
    induction user_messages as [|m rest IH]; intros [|reply replies] Hlen;
      try discriminate Hlen; [reflexivity|].
    cbn [combine flat_map app]. f_equal. f_equal. apply IH.
    now inversion Hlen.
  - rewrite transcript_user_texts. clear H Hs Hr. revert replies Hlen.
    induction user_messages as [|m rest IH]; intros [|reply replies] Hlen;
      try discriminate Hlen; [reflexivity|].
    cbn [combine map fst]. f_equal. apply IH. now inversion Hlen.
Qed.

Lemma session_transcript_witness :
  exists entries st',
    session (Demo.env_with Demo.answering) Demo.params
      ["How are you feeling?"; "Tell me more."] init
    = (Some entries, st')
    /\ map entry_speaker entries
       = [VStr "Patient"; VStr "You"; VStr "Patient"; VStr "You"; VStr "Patient"].
Proof.
  destruct (session_total (Demo.env_with Demo.answering) Demo.params
              ["How are you feeling?"; "Tell me more."] init
              answering_handled eq_refl) as (entries & st' & Hs).
  exists entries, st'. split; [exact Hs|].
  destruct (session_transcript _ _ _ _ _ _ Hs) as (_ & _ & _ & _ & H & _).
  exact H.
Defined.

(** ** A status 200 answer of [/message] is consistent *)

(** X17.  In an answer of [/message] with status 200, the fields agree:
    the last entry of the history is the patient's, its text is the
    response, its mood is the class of its mood score, which is the polarity
    of the response; and the colour of the evaluation is the class of the
    polarity of the evaluation's text. *)
Theorem message_answer_consistent (E : env) (data : value) (st st' : state)
  (r : response) :
  message E data st = (Ok r, st') ->
  status r = 200 ->
  exists history response text,
    body_field "conversation_history" r = Some (VList history)
    /\ body_field "response" r = Some (VStr response)
    /\ last history VNone
       = VDict [("speaker", VStr "Patient");
                ("text", VStr response);
                ("mood",
                 VStr (mood_name (classify_mood (sentiment_polarity E response))));
                ("mood_score", VFloat (sentiment_polarity E response))]
    /\ body_field "evaluation" r
       = Some (VDict [("color",
                       VStr (color_name
                               (classify_color (sentiment_polarity E text))));
                      ("text", VStr text)]).
Proof.
  intros H H200.
  destruct (message_ok_inv E _ _ _ _ H H200)
    as (fields & entries & context & s & p & reply & evaluation
        & _ & _ & _ & _ & _ & -> & _ & _).
  exists (entries ++ [you_entry (field "message" fields); patient_entry E reply])%list,
    reply, (str_strip E evaluation).
  repeat split.
  change [you_entry (field "message" fields); patient_entry E reply]
    with ([you_entry (field "message" fields)] ++ [patient_entry E reply])%list.
  rewrite app_assoc. apply last_last.
Qed.

Lemma message_answer_consistent_witness :
  exists r st' history,
    message (Demo.env_with Demo.answering)
      (message_request Demo.params [seed_entry "I feel stuck."] "Tell me more.")
      init
    = (Ok r, st')
    /\ body_field "conversation_history" r = Some (VList history)
    /\ body_field "response" r = Some (entry_text (last history VNone)).
Proof.
  destruct (message_ok (Demo.env_with Demo.answering)
              (message_fields Demo.params [seed_entry "I feel stuck."]
                 "Tell me more.")
              init [seed_entry "I feel stuck."] "Generalized Anxiety" "Avoidant"
              answering_handled eq_refl eq_refl eq_refl eq_refl)
    as (reply0 & evaluation & st' & Hm).
  destruct (message_answer_consistent _ _ _ _ _ Hm eq_refl)
    as (history & response & text & Hh & Hr & Hl & _).
  eexists _, st', history. split; [exact Hm|]. split; [exact Hh|].
  rewrite Hl. exact Hr.
Defined.

(** ** C6: [/start], on every request *)

Section StartCases.

Variable E : env.

(** With no parameter empty and strings for situation and personality,
    [start_session] is the launch on the initial prompt followed by the
    seeded answer. *)
Lemma start_session_strings fields st s p :
  (forall key, In key parameter_names -> empty_or_absent key fields = false) ->
  field "situation" fields = VStr s ->
  field "personality" fields = VStr p ->
  start_session E (VDict fields) st
  = (patient_response <-
       call_ollama E
         (initial_prompt (str_lower E s) (str_lower E p)
            (fmt E (field "style" fields)) (fmt E (field "role" fields)))
         default_model ;;
     ret (jsonify (start_body fields patient_response))) st.
Proof.
  intros Hall Hs Hp.
  rewrite start_session_dict, (proj2 (no_field_empty fields) Hall), Hs, Hp.
  reflexivity.
Qed.

Lemma start_session_not_a_string fields st :
  (forall key, In key parameter_names -> empty_or_absent key fields = false) ->
  (is_str (field "situation" fields) = false ->
   start_session E (VDict fields) st
   = (Raise (AttributeError (type_name (field "situation" fields)) "lower"), st))
  /\ (is_str (field "situation" fields) = true ->
      is_str (field "personality" fields) = false ->
      start_session E (VDict fields) st
      = (Raise (AttributeError (type_name (field "personality" fields)) "lower"),
         st)).
Proof.
  intros Hall. rewrite start_session_dict, (proj2 (no_field_empty fields) Hall).
  cbn [negb]. split.
  - intros Hs. apply bind_raise.
    destruct (field "situation" fields); try reflexivity. discriminate Hs.
  - intros Hs Hp.
    destruct (field "situation" fields) as [| | | |s| |]; try discriminate Hs.
    rewrite (bind_ok (lower E (VStr s)) _ st (str_lower E s) st eq_refl).
    apply bind_raise.
    destruct (field "personality" fields); try reflexivity. discriminate Hp.
Qed.

End StartCases.

(** C6, as amended.  [start_session] has no [try] and checks only that the
    four parameters are true for Python.
    - A body that is not a JSON object makes [data.get] raise
      [AttributeError] out of the handler.
    - On a JSON object with one of situation, personality, style and role
      empty or absent, the answer has status 400 and an error body, and
      nothing is launched.
    - With none of the four empty or absent, a situation, or else a
      personality, that is not a string makes [lower] raise
      [AttributeError] out of the handler, before any launch.
    - With none empty or absent and strings for situation and personality,
      the handler builds the initial prompt and launches the runner on it.
      When the launch ends in an exit status or a timeout, the answer has
      status 200 and the history seeded with the patient's reply; any other
      exception of the launch leaves the handler. *)
Theorem start_session_validation (E : env) (st : state) :
  (forall data,
      is_dict data = false ->
      start_session E data st = (Raise (AttributeError (type_name data) "get"), st))
  /\ (forall fields,
         (exists key, In key parameter_names /\ empty_or_absent key fields = true) ->
         start_session E (VDict fields) st
         = (Ok (mkResponse 400 (VDict [("error", VStr "Missing parameters")])), st))
  /\ (forall fields,
         (forall key, In key parameter_names -> empty_or_absent key fields = false) ->
         (is_str (field "situation" fields) = false ->
          start_session E (VDict fields) st
          = (Raise (AttributeError (type_name (field "situation" fields)) "lower"),
             st))
         /\ (is_str (field "situation" fields) = true ->
             is_str (field "personality" fields) = false ->
             start_session E (VDict fields) st
             = (Raise (AttributeError (type_name (field "personality" fields))
                         "lower"), st)))
  /\ (forall fields s p,
         (forall key, In key parameter_names -> empty_or_absent key fields = false) ->
         field "situation" fields = VStr s ->
         field "personality" fields = VStr p ->
         let prompt :=
           initial_prompt (str_lower E s) (str_lower E p)
             (fmt E (field "style" fields)) (fmt E (field "role" fields)) in
         let outcome := launch_result E prompt default_model st in
         (handled outcome = true ->
          exists r st',
            start_session E (VDict fields) st = (Ok r, st')
            /\ status r = 200
            /\ body_field "conversation_history" r
               = Some (VList [VDict [("speaker", VStr "Patient");
                                     ("text", VStr (reply_of E outcome))]])
            /\ body_field "response" r = Some (VStr (reply_of E outcome))
            /\ launched st' = (launched st ++ [ollama_argv default_model prompt])%list)
         /\ (forall e,
                outcome = Failed e ->
                handled (Failed e) = false ->
                start_session E (VDict fields) st
                = (Raise e, with_launch st (ollama_argv default_model prompt)))).
Proof.
  split; [|split; [|split]].
  - intros data H. destruct data; try reflexivity. discriminate H.
  - intros fields. apply start_session_missing.
  - intros fields. apply start_session_not_a_string.
  - intros fields s p Hall Hs Hp prompt outcome. split.
    + intros Hh.
      destruct (call_ollama_handled E _ _ _ Hh) as (st' & Hcall & Hl & _).
      rewrite (start_session_strings E _ _ _ _ Hall Hs Hp).
      fold prompt. rewrite (bind_ok _ _ _ _ _ Hcall).
      eexists _, st'. split; [reflexivity|]. auto.
    + intros e He Hh.
      rewrite (start_session_strings E _ _ _ _ Hall Hs Hp).
      fold prompt. apply bind_raise.
      exact (call_ollama_other E prompt default_model st e He Hh).
Qed.

Lemma start_session_validation_witness :
  start_session (Demo.env_with Demo.answering)
    (VDict [("situation", VStr ""); ("personality", VStr "Avoidant");
            ("style", VStr "formal")]) init
  = (Ok (mkResponse 400 (VDict [("error", VStr "Missing parameters")])), init)
  /\ exists r st',
       start_session (Demo.env_with Demo.hanging) (start_request Demo.params) init
       = (Ok r, st')
       /\ status r = 200
       /\ body_field "conversation_history" r
          = Some (VList [VDict [("speaker", VStr "Patient");
                                ("text", VStr "LLM request timed out.")]]).
Proof.
  split.
  - destruct (start_session_validation (Demo.env_with Demo.answering) init)
      as (_ & H & _).
    apply H. exists "situation". split; [left; reflexivity | reflexivity].
  - destruct (start_session_validation (Demo.env_with Demo.hanging) init)
      as (_ & _ & _ & H).
    destruct (H (params_fields Demo.params) "Generalized Anxiety" "Avoidant")
      as [Hok _].
    + intros key [<- | [<- | [<- | [<- | []]]]]; reflexivity.
    + reflexivity.
    + reflexivity.
    + destruct (Hok eq_refl) as (r & st' & Hs & H200 & Hh & _).
      exists r, st'. auto.
Defined.

(** C6 as stated fails.  With the body [null] all four parameters are
    absent, and the handler raises instead of answering 400; with four
    non-empty strings and the runner not installed, the launch raises
    [FileNotFoundError] and no seeded history is returned; with the number 5
    for situation, [lower] raises. *)
Lemma start_session_can_raise :
  start_session (Demo.env_with Demo.answering) VNone init
  = (Raise (AttributeError "NoneType" "get"), init)
  /\ start_session (Demo.env_with Demo.missing)
       (VDict [("situation", VStr "Generalized Anxiety");
               ("personality", VStr "Avoidant");
               ("style", VStr "formal"); ("role", VStr "therapist")]) init
     = (Raise (FileNotFoundError "ollama"),
        with_launch init
          (ollama_argv default_model
             (initial_prompt "generalized anxiety" "avoidant" "formal" "therapist")))
  /\ start_session (Demo.env_with Demo.answering)
       (VDict [("situation", VInt 5); ("personality", VStr "Avoidant");
               ("style", VStr "formal"); ("role", VStr "therapist")]) init
     = (Raise (AttributeError "int" "lower"), init).
Proof. repeat split. Qed.

(** ** C7: [/evaluate], on every request *)

(** C7, as amended.  [evaluate] has no [try] and checks only that the
    history is true for Python.
    - A body that is not a JSON object makes [data.get] raise
      [AttributeError] out of the handler.
    - On a JSON object whose conversation history is absent or the empty
      list, the answer has status 400 and an error body, and nothing is
      launched.
    - A history that is true for Python without being a list makes the
      generator raise [TypeError] out of the handler, and a list with an
      entry that is no object, or lacks speaker or text, makes it raise the
      error of the first such entry; nothing is launched.
    - On a non-empty list of entries that all have speaker and text, the
      handler launches the runner on the session prompt.  When the launch
      ends in an exit status or a timeout, the answer has status 200 and
      its body is the evaluation text as [call_ollama] returned it, alone,
      with no colour; any other exception of the launch leaves the
      handler. *)
Theorem evaluate_validation (E : env) (st : state) :
  (forall data,
      is_dict data = false ->
      evaluate E data st = (Raise (AttributeError (type_name data) "get"), st))
  /\ (forall fields,
         (lookup "conversation_history" fields = None
          \/ lookup "conversation_history" fields = Some (VList [])) ->
         evaluate E (VDict fields) st
         = (Ok (mkResponse 400
                  (VDict [("error", VStr "No conversation history provided")])),
            st))
  /\ (forall fields,
         truthy (request_history fields) = true ->
         is_list (request_history fields) = false ->
         evaluate E (VDict fields) st
         = (Raise (TypeError (if is_str (request_history fields)
                                 || is_dict (request_history fields)
                              then "str"
                              else type_name (request_history fields))), st))
  /\ (forall fields good bad rest e,
         lookup "conversation_history" fields = Some (VList (good ++ bad :: rest)) ->
         forallb well_formed_entry good = true ->
         entry_error bad = Some e ->
         evaluate E (VDict fields) st = (Raise e, st))
  /\ (forall fields entries,
         lookup "conversation_history" fields = Some (VList entries) ->
         entries <> [] ->
         forallb well_formed_entry entries = true ->
         let outcome := launch_result E (evaluate_prompt E entries) default_model st in
         (handled outcome = true ->
          exists r st',
            evaluate E (VDict fields) st = (Ok r, st')
            /\ status r = 200
            /\ body r = VDict [("evaluation", VStr (reply_of E outcome))]
            /\ body_field "color" r = None)
         /\ (forall e,
                outcome = Failed e ->
                handled (Failed e) = false ->
                evaluate E (VDict fields) st
                = (Raise e,
                   with_launch st
                     (ollama_argv default_model (evaluate_prompt E entries))))).
Proof.
  split; [|split; [|split; [|split]]].
  - intros data H. destruct data; try reflexivity. discriminate H.
  - intros fields H. apply evaluate_empty. unfold request_history.
    destruct H as [-> | ->]; reflexivity.
  - intros fields Ht Hl. rewrite evaluate_dict, Ht. cbn [negb].
    apply bind_raise.
    destruct (request_history fields) as [| | | |s|items|fs];
      try reflexivity; try discriminate Ht; try discriminate Hl.
    + cbn in Ht. cbn. destruct (s =? "")%string; [discriminate Ht | reflexivity].
    + destruct fs; [discriminate Ht | reflexivity].
  - intros fields good bad rest e Hl Hg Hb.
    assert (Hh : request_history fields = VList (good ++ bad :: rest))
      by (unfold request_history; now rewrite Hl).
    rewrite evaluate_dict, Hh.
    assert (Ht : truthy (VList (good ++ bad :: rest)) = true)
      by (destruct good; reflexivity).
    rewrite Ht. cbn [negb]. apply bind_raise.
    now rewrite conversation_context_pure,
      (conversation_context_first_error E _ _ _ _ Hg Hb).
  - intros fields entries Hl Hne Hwf outcome.
    assert (Hr : request_history fields = VList entries)
      by (unfold request_history; now rewrite Hl).
    rewrite (evaluate_proceeds E _ _ _ Hr Hne Hwf). split.
    + intros Hh.
      destruct (call_ollama_handled E _ _ _ Hh) as (st' & Hcall & _ & _).
      rewrite (bind_ok _ _ _ _ _ Hcall).
      eexists _, st'. split; [reflexivity|]. auto.
    + intros e He Hh. apply bind_raise.
      exact (call_ollama_other E _ default_model st e He Hh).
Qed.

Lemma evaluate_validation_witness :
  evaluate (Demo.env_with Demo.failing) (VDict [("conversation_history", VList [])])
    init
  = (Ok (mkResponse 400 (VDict [("error", VStr "No conversation history provided")])),
     init)
  /\ exists r st',
       evaluate (Demo.env_with Demo.failing)
         (VDict [("conversation_history", VList [seed_entry "I feel stuck."])]) init
       = (Ok r, st')
       /\ status r = 200
       /\ body_field "color" r = None.
Proof.
  split.
  - destruct (evaluate_validation (Demo.env_with Demo.failing) init) as (_ & H & _).
    apply H. right. reflexivity.
  - destruct (evaluate_validation (Demo.env_with Demo.failing) init)
      as (_ & _ & _ & _ & H).
    destruct (H [("conversation_history", VList [seed_entry "I feel stuck."])]
                [seed_entry "I feel stuck."] eq_refl) as [Hok _].
    + discriminate.
    + reflexivity.
    + destruct (Hok eq_refl) as (r & st' & He & Hs & _ & Hc).
      exists r, st'. auto.
Defined.

(** C7 as stated fails.  With the body [null] the history is absent, and
    the handler raises instead of answering 400; a non-empty history whose
    entry has no speaker makes the generator raise [KeyError]; and with a
    well-formed non-empty history and the runner not installed, the launch
    raises [FileNotFoundError]: no evaluation text is returned. *)
Lemma evaluate_can_raise :
  evaluate (Demo.env_with Demo.answering) VNone init
  = (Raise (AttributeError "NoneType" "get"), init)
  /\ evaluate (Demo.env_with Demo.answering)
       (VDict [("conversation_history", VList [VDict [("text", VStr "Hello")]])])
       init
     = (Raise (KeyError "speaker"), init)
  /\ evaluate (Demo.env_with Demo.missing)
       (VDict [("conversation_history", VList [seed_entry "I feel stuck."])]) init
     = (Raise (FileNotFoundError "ollama"),
        with_launch init
          (ollama_argv default_model (session_prompt "Patient: I feel stuck."))).
Proof. repeat split. Qed.

(** ** What [/message] answers *)

(** X8.  A [/message] request whose body is a JSON object is always
    answered, never with an exception.  When the [try] block returns, its
    answer, of status 200, is the answer.  When the [try] block raises an
    exception [e], the answer has status 500 and carries [str(e)], a RED
    evaluation whose text is "Error: " and [str(e)], and the value the local
    [conversation_history] had when [e] was raised: the history of the
    request, or that list followed by the user's entry, or followed by the
    user's entry and the patient's. *)
Theorem message_object_body (E : env) (fields : list (string * value))
  (st : state) :
  (exists r st', message E (VDict fields) st = (Ok r, st'))
  /\ (forall r st1,
         message_try E (VDict fields) (with_local st None) = (Ok r, st1) ->
         status r = 200
         /\ message E (VDict fields) st = (Ok r, with_local st1 (local_history st)))
  /\ (forall e st1,
         message_try E (VDict fields) (with_local st None) = (Raise e, st1) ->
         exists history,
           local_history st1 = Some history
           /\ message E (VDict fields) st
              = (Ok (mkResponse 500
                       (VDict [("error", VStr (str_exn E e));
                               ("conversation_history", history);
                               ("evaluation",
                                VDict [("color", VStr "RED");
                                       ("text", VStr ("Error: " ++ str_exn E e))])])),
                 with_local st1 (local_history st))
           /\ (history = request_history fields
               \/ exists entries,
                    request_history fields = VList entries
                    /\ (history
                        = VList (entries ++ [you_entry (field "message" fields)])
                        \/ exists reply,
                             history
                             = VList (entries
                                      ++ [you_entry (field "message" fields);
                                          patient_entry E reply])))).
Proof.
  assert (Hok : forall r st1,
             message_try E (VDict fields) (with_local st None) = (Ok r, st1) ->
             status r = 200
             /\ message E (VDict fields) st
                = (Ok r, with_local st1 (local_history st))).
  { intros r st1 Htry. split; [|now rewrite message_unfold, Htry].
    rewrite message_try_dict in Htry.
    destruct (request_history fields) as [| | | | |entries|]; try discriminate Htry.
    eapply message_rest_ok_inv in Htry; [|reflexivity].
    destruct Htry as (context & s & p & reply & evaluation & _ & _ & _ & -> & _).
    reflexivity. }
  assert (Hraise : forall e st1,
             message_try E (VDict fields) (with_local st None) = (Raise e, st1) ->
             exists history,
               local_history st1 = Some history
               /\ message E (VDict fields) st
                  = (Ok (mkResponse 500 (VDict (error_body E e history))),
                     with_local st1 (local_history st))
               /\ (history = request_history fields
                   \/ exists entries,
                        request_history fields = VList entries
                        /\ (history
                            = VList (entries ++ [you_entry (field "message" fields)])
                            \/ exists reply,
                                 history
                                 = VList (entries
                                          ++ [you_entry (field "message" fields);
                                              patient_entry E reply])))).
  { intros e st1 Htry.
    destruct (message_try_dict_raise E _ _ _ _ Htry) as (history & Hloc & Hshape).
    exists history. split; [exact Hloc|]. split; [|exact Hshape].
    now rewrite message_unfold, Htry, (message_except_bound E e st1 history Hloc). }
  split; [|split; [exact Hok | exact Hraise]].
  destruct (message_try E (VDict fields) (with_local st None))
    as [[r | e] st1] eqn:Htry.
  - destruct (Hok r st1 eq_refl) as [_ H]. eauto.
  - destruct (Hraise e st1 eq_refl) as (history & _ & H & _). eauto.
Qed.

Lemma message_object_body_witness :
  fst (message (Demo.env_with Demo.vanishing)
         (message_request Demo.params [seed_entry "I feel stuck."] "Tell me more.")
         init)
  = Ok (mkResponse 500
          (VDict [("error", VStr (Demo.exn_text (FileNotFoundError "ollama")));
                  ("conversation_history",
                   VList [seed_entry "I feel stuck."; you_entry (VStr "Tell me more.");
                          patient_entry (Demo.env_with Demo.vanishing)
                            "I feel worse than last week."]);
                  ("evaluation",
                   VDict [("color", VStr "RED");
                          ("text",
                           VStr ("Error: "
                                 ++ Demo.exn_text (FileNotFoundError "ollama")))])])).
Proof.
  destruct (message_object_body (Demo.env_with Demo.vanishing)
              (message_fields Demo.params [seed_entry "I feel stuck."]
                 "Tell me more.") init) as (_ & _ & H).
  destruct (H (FileNotFoundError "ollama")
              (snd (message_try (Demo.env_with Demo.vanishing)
                      (message_request Demo.params [seed_entry "I feel stuck."]
                         "Tell me more.") (with_local init None))) eq_refl)
    as (history & Hloc & Hm & _).
  unfold message_request. rewrite Hm. cbn [fst]. inversion Hloc. reflexivity.
Defined.
